(** * Verification of [BedrockClient.llm_request]

    Shallow embedding of
    [src/llmperf/ray_clients/bedrock_chat_completions_client.py]: the request
    builder (lines 44-107) and the response timing engine (lines 110-195).

    Modelling conventions.
    - Python values are the inductive [pyval]; a [dict] with string keys is a
      finite map [gmap string pyval].
    - A Python [float] is a binary64 value, Rocq's primitive [float]:
      readings of [time.monotonic()] are floats, and their differences, sums
      and quotients are rounded to the nearest value, ties to even, as the
      machine rounds them.
    - Exceptions are the type [exn]; every constructor stands for a subclass
      of Python's [Exception], so [except Exception] catches all of them.
    - Local variables survive a raise: statements run in the monad
      [M A := Locals -> outcome A * Locals].
    - [request_config.sampling_params] is an object shared with the caller;
      the builder returns the state in which it leaves that object, and
      [api_inputs] refers to it rather than holding a copy.
    - The remote service is a parameter ([Provider]); its events and its
      blocking response are dictionaries.  [boto3.client] is taken to
      succeed, and [print] calls are not modelled. *)

From Stdlib Require Import ZArith.
From Stdlib Require Import Floats.PrimFloat Floats.SpecFloat Floats.FloatOps.
From stdpp Require Import base option list strings gmap fin_maps.

Local Open Scope string_scope.
Set Warnings "-register-all,-inexact-float".

(** ** Python values *)

Inductive pyval : Type :=
| VNone
| VBool (b : bool)
| VInt (z : Z)
| VFloat (q : float)
| VStr (s : string)
| VList (l : list pyval)
| VDict (d : gmap string pyval).

Inductive exn : Type :=
| ValueError (msg : string)
| NameError (name : string)
| KeyError (key : pyval)
| IndexError
| TypeError
| ZeroDivisionError
| OverflowError
| ProviderError (msg : string).

Inductive outcome (A : Type) : Type :=
| Ok (a : A)
| Raise (e : exn).
Arguments Ok {A} a.
Arguments Raise {A} e.

(** [bool(v)]. *)
Definition truthy (v : pyval) : bool :=
  match v with
  | VNone => false
  | VBool b => b
  | VInt z => negb (z =? 0)%Z
  | VFloat q => negb (PrimFloat.eqb q 0%float)
  | VStr s => negb (String.eqb s "")
  | VList l => negb (Nat.eqb (length l) 0)
  | VDict d => negb (Nat.eqb (size d) 0)
  end.

Abbreviation dict := (gmap string pyval).

Definition has_key {A : Type} (k : string) (d : gmap string A) : bool :=
  match d !! k with Some _ => true | None => false end.

(** [v[k]] for a string key [k]. *)
Definition getitem (v : pyval) (k : string) : outcome pyval :=
  match v with
  | VDict d =>
      match d !! k with
      | Some x => Ok x
      | None => Raise (KeyError (VStr k))
      end
  | _ => Raise TypeError
  end.

(** [v[i]] for an integer index [i] (the source only uses [0]). *)
Definition getitem_int (v : pyval) (i : nat) : outcome pyval :=
  match v with
  | VList l =>
      match l !! i with
      | Some x => Ok x
      | None => Raise IndexError
      end
  | VStr s =>
      match String.get i s with
      | Some c => Ok (VStr (String c EmptyString))
      | None => Raise IndexError
      end
  | VDict _ => Raise (KeyError (VInt (Z.of_nat i)))
  | _ => Raise TypeError
  end.

(** [k in v] for a string [k]. *)
Definition contains (k : string) (v : pyval) : outcome bool :=
  match v with
  | VDict d => Ok (has_key k d)
  | VList l =>
      Ok (existsb (fun x => match x with VStr s => String.eqb s k | _ => false end) l)
  | VStr s =>
      Ok (match String.index 0 k s with Some _ => true | None => false end)
  | _ => Raise TypeError
  end.

(** [a + b] where [a] is a [str] (the only use is [generated_text += ...],
    whose left operand is a string on the streaming path). *)
Definition str_add (a b : pyval) : outcome pyval :=
  match a, b with
  | VStr s, VStr t => Ok (VStr (s +:+ t))
  | _, _ => Raise TypeError
  end.

(** The binary64 value nearest to an integer, ties to even; it is infinite
    when the integer is beyond the largest finite value. *)
Definition float_of_Z (z : Z) : float :=
  SF2Prim (binary_normalize prec emax z 0 false).

(** The conversion of an [int] operand of a float operation: an integer too
    large for a [float] raises [OverflowError]. *)
Definition int_to_float (z : Z) : outcome float :=
  let f := float_of_Z z in
  if PrimFloat.is_infinity f then Raise OverflowError else Ok f.

(** [a / t] where [t] is a [float]: the left operand is converted first, a
    zero divisor (of either sign) raises, and the quotient is rounded. *)
Definition truediv (a : pyval) (t : float) : outcome pyval :=
  let div (q : float) :=
    if PrimFloat.eqb t 0%float then Raise ZeroDivisionError
    else Ok (VFloat (q / t)%float) in
  match a with
  | VInt z =>
      match int_to_float z with
      | Ok q => div q
      | Raise e => Raise e
      end
  | VBool b => div (if b then 1%float else 0%float)
  | VFloat q => div q
  | _ => Raise TypeError
  end.

(** [sum(l)] for a list of floats: the start value is the [int] [0], and the
    elements are added from the left, each addition rounded.  (From CPython
    3.12 on, [sum] also carries a compensation term for the rounding errors
    of these additions; it is zero as long as the additions are exact.) *)
Definition py_sum (l : list float) : pyval :=
  match l with
  | [] => VInt 0
  | _ => VFloat (fold_left PrimFloat.add l 0%float)
  end.

(** ** The metrics record *)

(** Modelled from the spec: the key constants of [llmperf.common_metrics], a
    module that is not among the sources.  They are taken as nine distinct
    dictionary keys. *)
Inductive metric_key : Set :=
| ERROR_CODE | ERROR_MSG | INTER_TOKEN_LAT | TTFT | E2E_LAT
| REQ_OUTPUT_THROUGHPUT | NUM_TOTAL_TOKENS | NUM_OUTPUT_TOKENS | NUM_INPUT_TOKENS.

#[global] Instance metric_key_eq_dec : EqDecision metric_key.
Proof. solve_decision. Defined.

Definition metric_key_code (k : metric_key) : nat :=
  match k with
  | ERROR_CODE => 0 | ERROR_MSG => 1 | INTER_TOKEN_LAT => 2 | TTFT => 3
  | E2E_LAT => 4 | REQ_OUTPUT_THROUGHPUT => 5 | NUM_TOTAL_TOKENS => 6
  | NUM_OUTPUT_TOKENS => 7 | NUM_INPUT_TOKENS => 8
  end.

Definition metric_key_of_code (n : nat) : metric_key :=
  match n with
  | 0 => ERROR_CODE | 1 => ERROR_MSG | 2 => INTER_TOKEN_LAT | 3 => TTFT
  | 4 => E2E_LAT | 5 => REQ_OUTPUT_THROUGHPUT | 6 => NUM_TOTAL_TOKENS
  | 7 => NUM_OUTPUT_TOKENS | _ => NUM_INPUT_TOKENS
  end.

#[global] Instance metric_key_countable : Countable metric_key.
Proof.
  refine (inj_countable' metric_key_code metric_key_of_code _).
  by intros [].
Defined.

Abbreviation BenchmarkMetrics := (gmap metric_key pyval).

(** ** The request description and the request builder (lines 44-107) *)

(** Modelled from the spec: the class [RequestConfig] of [llmperf.models],
    which is not among the sources, with the four attributes that
    [llm_request] reads.  [request_config] is one object shared with the
    caller; a value of this record is the state of that object at one
    moment. *)
Record RequestConfig : Type := {
  model : string;
  prompt : string * Z;
  sampling_params : option dict;
  additional_request_body : option dict
}.

(** An entry of [api_inputs].  [inference_config] is bound to the very object
    [request_config.sampling_params] (line 55), so the entry stored at line 86
    is a reference to that object and not a copy. *)
Inductive argval : Type :=
| Arg (v : pyval)
| SamplingParamsRef.

Definition opt_truthy (d : option dict) : bool :=
  match d with
  | Some d => truthy (VDict d)
  | None => false
  end.

(** Lines 57-59, as an update of the shared object. *)
Definition rename_max_tokens (inference_config : option dict) : option dict :=
  match inference_config with
  | Some d =>
      if opt_truthy inference_config && has_key "max_tokens" d
      then match d !! "max_tokens" with
           | Some v => Some (delete "max_tokens" (<["maxTokens" := v]> d))
           | None => Some d
           end
      else Some d
  | None => None
  end.

(** Lines 61-65: the stream directive and the updated shared object. *)
Definition extract_stream (inference_config : option dict) : pyval * option dict :=
  match inference_config with
  | Some d =>
      if opt_truthy inference_config && has_key "stream" d
      then match d !! "stream" with
           | Some v => (v, Some (delete "stream" d))
           | None => (VBool false, Some d)
           end
      else (VBool false, Some d)
  | None => (VBool false, None)
  end.

(** Lines 90-107. *)
Definition add_request_body (body : dict) (api_inputs : gmap string argval)
  : outcome (gmap string argval) :=
  let system := default (VStr "") (body !! "system") in
  let system_prompts :=
    if truthy system then VList [VDict {["text" := system]}] else VNone in
  let additionalModelRequestFields :=
    default (VStr "") (body !! "additionalModelRequestFields") in
  let additionalModelResponseFieldPaths :=
    default (VStr "") (body !! "additionalModelResponseFieldPaths") in
  let toolConfig := default (VStr "") (body !! "toolConfig") in
  let api_inputs :=
    if truthy system_prompts
    then <["system" := Arg system_prompts]> api_inputs else api_inputs in
  let api_inputs :=
    if truthy additionalModelRequestFields
    then <["additionalModelRequestFields" := Arg additionalModelRequestFields]> api_inputs
    else api_inputs in
  let api_inputs :=
    if truthy additionalModelResponseFieldPaths
    then <["additionalModelResponseFieldPaths" := Arg additionalModelResponseFieldPaths]> api_inputs
    else api_inputs in
  if truthy toolConfig
  then Raise (NameError "tool_config")   (* line 107 reads the unbound name *)
  else Ok api_inputs.

(** Lines 44-107.  The result is the outcome (the call arguments and the
    stream directive, or the exception raised) together with the state of the
    [request_config] object afterwards. *)
Definition request_builder (request_config : RequestConfig)
  : outcome (gmap string argval * pyval) * RequestConfig :=
  let '(prompt_text, prompt_len) := prompt request_config in
  let model_id := model request_config in
  let inference_config := rename_max_tokens (sampling_params request_config) in
  let '(stream_model, inference_config) := extract_stream inference_config in
  let request_config' :=
    {| model := model request_config;
       prompt := prompt request_config;
       sampling_params := inference_config;
       additional_request_body := additional_request_body request_config |} in
  let messages :=
    VList [VDict (<["role" := VStr "user"]>
                  (<["content" := VList [VDict {["text" := VStr prompt_text]}]]> ∅))] in
  let api_inputs : gmap string argval :=
    <["messages" := Arg messages]> (<["modelId" := Arg (VStr model_id)]> ∅) in
  let api_inputs :=
    if opt_truthy inference_config
    then <["inferenceConfig" := SamplingParamsRef]> api_inputs else api_inputs in
  match additional_request_body request_config with
  | Some body =>
      match add_request_body body api_inputs with
      | Ok api_inputs => (Ok (api_inputs, stream_model), request_config')
      | Raise e => (Raise e, request_config')
      end
  | None => (Ok (api_inputs, stream_model), request_config')
  end.

(** The keyword arguments that [**api_inputs] passes when the call is made
    while the shared object is in state [request_config]. *)
Definition call_arguments (request_config : RequestConfig)
  (api_inputs : gmap string argval) : dict :=
  omap (fun a => match a with
                 | Arg v => Some v
                 | SamplingParamsRef => VDict <$> sampling_params request_config
                 end) api_inputs.

(** ** The response timing engine (lines 110-195) *)

(** The local variables of [llm_request] from line 110 on, and the number of
    calls of [time.monotonic()] made so far. *)
Record Locals : Type := {
  role : pyval;
  generated_text : pyval;
  message_stop : pyval;
  usage : pyval;
  metrics : pyval;
  benchmark_metrics : BenchmarkMetrics;
  time_to_next_token : list float;
  tokens_received : pyval;
  ttft : pyval;
  error_response_code : pyval;
  error_msg : pyval;
  output_throughput : pyval;
  total_request_time : pyval;
  start_time : float;
  most_recent_received_token_time : float;
  clock_reads : nat
}.

(** [set_f x st] is [st] with the variable [f] assigned [x]. *)
Definition set_role (x : pyval) (st : Locals) : Locals :=
  {| role := x; generated_text := generated_text st;
     message_stop := message_stop st; usage := usage st;
     metrics := metrics st; benchmark_metrics := benchmark_metrics st;
     time_to_next_token := time_to_next_token st;
     tokens_received := tokens_received st; ttft := ttft st;
     error_response_code := error_response_code st; error_msg := error_msg st;
     output_throughput := output_throughput st;
     total_request_time := total_request_time st; start_time := start_time st;
     most_recent_received_token_time := most_recent_received_token_time st;
     clock_reads := clock_reads st |}.

Definition set_generated_text (x : pyval) (st : Locals) : Locals :=
  {| role := role st; generated_text := x; message_stop := message_stop st;
     usage := usage st; metrics := metrics st;
     benchmark_metrics := benchmark_metrics st;
     time_to_next_token := time_to_next_token st;
     tokens_received := tokens_received st; ttft := ttft st;
     error_response_code := error_response_code st; error_msg := error_msg st;
     output_throughput := output_throughput st;
     total_request_time := total_request_time st; start_time := start_time st;
     most_recent_received_token_time := most_recent_received_token_time st;
     clock_reads := clock_reads st |}.

Definition set_message_stop (x : pyval) (st : Locals) : Locals :=
  {| role := role st; generated_text := generated_text st; message_stop := x;
     usage := usage st; metrics := metrics st;
     benchmark_metrics := benchmark_metrics st;
     time_to_next_token := time_to_next_token st;
     tokens_received := tokens_received st; ttft := ttft st;
     error_response_code := error_response_code st; error_msg := error_msg st;
     output_throughput := output_throughput st;
     total_request_time := total_request_time st; start_time := start_time st;
     most_recent_received_token_time := most_recent_received_token_time st;
     clock_reads := clock_reads st |}.

Definition set_usage (x : pyval) (st : Locals) : Locals :=
  {| role := role st; generated_text := generated_text st;
     message_stop := message_stop st; usage := x; metrics := metrics st;
     benchmark_metrics := benchmark_metrics st;
     time_to_next_token := time_to_next_token st;
     tokens_received := tokens_received st; ttft := ttft st;
     error_response_code := error_response_code st; error_msg := error_msg st;
     output_throughput := output_throughput st;
     total_request_time := total_request_time st; start_time := start_time st;
     most_recent_received_token_time := most_recent_received_token_time st;
     clock_reads := clock_reads st |}.

Definition set_metrics (x : pyval) (st : Locals) : Locals :=
  {| role := role st; generated_text := generated_text st;
     message_stop := message_stop st; usage := usage st; metrics := x;
     benchmark_metrics := benchmark_metrics st;
     time_to_next_token := time_to_next_token st;
     tokens_received := tokens_received st; ttft := ttft st;
     error_response_code := error_response_code st; error_msg := error_msg st;
     output_throughput := output_throughput st;
     total_request_time := total_request_time st; start_time := start_time st;
     most_recent_received_token_time := most_recent_received_token_time st;
     clock_reads := clock_reads st |}.

Definition set_benchmark_metrics (x : BenchmarkMetrics) (st : Locals) : Locals :=
  {| role := role st; generated_text := generated_text st;
     message_stop := message_stop st; usage := usage st;
     metrics := metrics st; benchmark_metrics := x;
     time_to_next_token := time_to_next_token st;
     tokens_received := tokens_received st; ttft := ttft st;
     error_response_code := error_response_code st; error_msg := error_msg st;
     output_throughput := output_throughput st;
     total_request_time := total_request_time st; start_time := start_time st;
     most_recent_received_token_time := most_recent_received_token_time st;
     clock_reads := clock_reads st |}.

Definition set_time_to_next_token (x : list float) (st : Locals) : Locals :=
  {| role := role st; generated_text := generated_text st;
     message_stop := message_stop st; usage := usage st;
     metrics := metrics st; benchmark_metrics := benchmark_metrics st;
     time_to_next_token := x; tokens_received := tokens_received st;
     ttft := ttft st; error_response_code := error_response_code st;
     error_msg := error_msg st; output_throughput := output_throughput st;
     total_request_time := total_request_time st; start_time := start_time st;
     most_recent_received_token_time := most_recent_received_token_time st;
     clock_reads := clock_reads st |}.

Definition set_tokens_received (x : pyval) (st : Locals) : Locals :=
  {| role := role st; generated_text := generated_text st;
     message_stop := message_stop st; usage := usage st;
     metrics := metrics st; benchmark_metrics := benchmark_metrics st;
     time_to_next_token := time_to_next_token st; tokens_received := x;
     ttft := ttft st; error_response_code := error_response_code st;
     error_msg := error_msg st; output_throughput := output_throughput st;
     total_request_time := total_request_time st; start_time := start_time st;
     most_recent_received_token_time := most_recent_received_token_time st;
     clock_reads := clock_reads st |}.

Definition set_ttft (x : pyval) (st : Locals) : Locals :=
  {| role := role st; generated_text := generated_text st;
     message_stop := message_stop st; usage := usage st;
     metrics := metrics st; benchmark_metrics := benchmark_metrics st;
     time_to_next_token := time_to_next_token st;
     tokens_received := tokens_received st; ttft := x;
     error_response_code := error_response_code st; error_msg := error_msg st;
     output_throughput := output_throughput st;
     total_request_time := total_request_time st; start_time := start_time st;
     most_recent_received_token_time := most_recent_received_token_time st;
     clock_reads := clock_reads st |}.

Definition set_error_response_code (x : pyval) (st : Locals) : Locals :=
  {| role := role st; generated_text := generated_text st;
     message_stop := message_stop st; usage := usage st;
     metrics := metrics st; benchmark_metrics := benchmark_metrics st;
     time_to_next_token := time_to_next_token st;
     tokens_received := tokens_received st; ttft := ttft st;
     error_response_code := x; error_msg := error_msg st;
     output_throughput := output_throughput st;
     total_request_time := total_request_time st; start_time := start_time st;
     most_recent_received_token_time := most_recent_received_token_time st;
     clock_reads := clock_reads st |}.

Definition set_error_msg (x : pyval) (st : Locals) : Locals :=
  {| role := role st; generated_text := generated_text st;
     message_stop := message_stop st; usage := usage st;
     metrics := metrics st; benchmark_metrics := benchmark_metrics st;
     time_to_next_token := time_to_next_token st;
     tokens_received := tokens_received st; ttft := ttft st;
     error_response_code := error_response_code st; error_msg := x;
     output_throughput := output_throughput st;
     total_request_time := total_request_time st; start_time := start_time st;
     most_recent_received_token_time := most_recent_received_token_time st;
     clock_reads := clock_reads st |}.

Definition set_output_throughput (x : pyval) (st : Locals) : Locals :=
  {| role := role st; generated_text := generated_text st;
     message_stop := message_stop st; usage := usage st;
     metrics := metrics st; benchmark_metrics := benchmark_metrics st;
     time_to_next_token := time_to_next_token st;
     tokens_received := tokens_received st; ttft := ttft st;
     error_response_code := error_response_code st; error_msg := error_msg st;
     output_throughput := x; total_request_time := total_request_time st;
     start_time := start_time st;
     most_recent_received_token_time := most_recent_received_token_time st;
     clock_reads := clock_reads st |}.

Definition set_total_request_time (x : pyval) (st : Locals) : Locals :=
  {| role := role st; generated_text := generated_text st;
     message_stop := message_stop st; usage := usage st;
     metrics := metrics st; benchmark_metrics := benchmark_metrics st;
     time_to_next_token := time_to_next_token st;
     tokens_received := tokens_received st; ttft := ttft st;
     error_response_code := error_response_code st; error_msg := error_msg st;
     output_throughput := output_throughput st; total_request_time := x;
     start_time := start_time st;
     most_recent_received_token_time := most_recent_received_token_time st;
     clock_reads := clock_reads st |}.

Definition set_start_time (x : float) (st : Locals) : Locals :=
  {| role := role st; generated_text := generated_text st;
     message_stop := message_stop st; usage := usage st;
     metrics := metrics st; benchmark_metrics := benchmark_metrics st;
     time_to_next_token := time_to_next_token st;
     tokens_received := tokens_received st; ttft := ttft st;
     error_response_code := error_response_code st; error_msg := error_msg st;
     output_throughput := output_throughput st;
     total_request_time := total_request_time st; start_time := x;
     most_recent_received_token_time := most_recent_received_token_time st;
     clock_reads := clock_reads st |}.

Definition set_most_recent_received_token_time (x : float) (st : Locals) : Locals :=
  {| role := role st; generated_text := generated_text st;
     message_stop := message_stop st; usage := usage st;
     metrics := metrics st; benchmark_metrics := benchmark_metrics st;
     time_to_next_token := time_to_next_token st;
     tokens_received := tokens_received st; ttft := ttft st;
     error_response_code := error_response_code st; error_msg := error_msg st;
     output_throughput := output_throughput st;
     total_request_time := total_request_time st; start_time := start_time st;
     most_recent_received_token_time := x; clock_reads := clock_reads st |}.

Definition set_clock_reads (x : nat) (st : Locals) : Locals :=
  {| role := role st; generated_text := generated_text st;
     message_stop := message_stop st; usage := usage st;
     metrics := metrics st; benchmark_metrics := benchmark_metrics st;
     time_to_next_token := time_to_next_token st;
     tokens_received := tokens_received st; ttft := ttft st;
     error_response_code := error_response_code st; error_msg := error_msg st;
     output_throughput := output_throughput st;
     total_request_time := total_request_time st; start_time := start_time st;
     most_recent_received_token_time := most_recent_received_token_time st;
     clock_reads := x |}.

(** Statements: a state transformer that may raise, the locals being kept
    as they were at the moment of the raise. *)
Definition M (A : Type) : Type := Locals -> outcome A * Locals.

Definition ret {A : Type} (a : A) : M A := fun st => (Ok a, st).

Definition bind {A B : Type} (m : M A) (f : A -> M B) : M B :=
  fun st =>
    match m st with
    | (Ok a, st') => f a st'
    | (Raise e, st') => (Raise e, st')
    end.

Definition lift {A : Type} (o : outcome A) : M A := fun st => (o, st).

Definition gets {A : Type} (f : Locals -> A) : M A := fun st => (Ok (f st), st).

Definition modify (f : Locals -> Locals) : M unit := fun st => (Ok tt, f st).

Definition when (b : bool) (m : M unit) : M unit := if b then m else ret tt.

(** [try: body except Exception as e: handler e]. *)
Definition try_except (body : M unit) (handler : exn -> M unit) : M unit :=
  fun st =>
    match body st with
    | (Ok _, st') => (Ok tt, st')
    | (Raise e, st') => handler e st'
    end.

Declare Scope py_scope.
Delimit Scope py_scope with py.
Notation "x <- m ;; k" := (bind m (fun x => k))
  (at level 100, m at next level, right associativity) : py_scope.
Notation "m ;; k" := (bind m (fun _ => k))
  (at level 100, right associativity) : py_scope.
Local Open Scope py_scope.

Fixpoint for_each {A : Type} (l : list A) (body : A -> M unit) : M unit :=
  match l with
  | [] => ret tt
  | x :: r => body x ;; for_each r body
  end.

(** [benchmark_metrics[k] = v]. *)
Definition set_metric (k : metric_key) (v : pyval) : M unit :=
  modify (fun st => set_benchmark_metrics (<[k := v]> (benchmark_metrics st)) st).

(** What [converse_stream] does: it raises, or it returns a response whose
    ['stream'] entry is missing ([response.get] then gives [None]), or it
    returns a stream that yields [events] and then is exhausted
    ([ending = None]) or raises while the next event is awaited. *)
Inductive stream_reply : Type :=
| StreamRaise (e : exn)
| StreamAbsent
| Stream (events : list dict) (ending : option exn).

(** The remote service, an opaque collaborator. *)
Record Provider : Type := {
  converse : dict -> outcome dict;
  converse_stream : dict -> stream_reply
}.

Section Engine.

(** The [n]-th call of [time.monotonic()] returns [clock n]. *)
Variable clock : nat -> float.
Variable bedrock_client : Provider.

Definition monotonic : M float :=
  fun st => (Ok (clock (clock_reads st)), set_clock_reads (S (clock_reads st)) st).

(** Lines 136-137. *)
Definition on_message_start (event : dict) : M unit :=
  body <- lift (getitem (VDict event) "messageStart") ;;
  r <- lift (getitem body "role") ;;
  modify (set_role r).

(** Lines 141-148: the arrival of a content delta is timed. *)
Definition record_arrival : M unit :=
  t <- gets ttft ;;
  (if negb (truthy t) then
     now <- monotonic ;;
     s <- gets start_time ;;
     modify (set_ttft (VFloat (now - s))) ;;
     modify (fun st => set_time_to_next_token (time_to_next_token st ++ [(now - s)%float]) st)
   else
     now <- monotonic ;;
     recent <- gets most_recent_received_token_time ;;
     modify (fun st => set_time_to_next_token (time_to_next_token st ++ [(now - recent)%float]) st)) ;;
  now <- monotonic ;;
  modify (set_most_recent_received_token_time now).

(** Lines 139-150. *)
Definition on_content_block_delta (event : dict) : M unit :=
  record_arrival ;;
  g <- gets generated_text ;;
  body <- lift (getitem (VDict event) "contentBlockDelta") ;;
  delta <- lift (getitem body "delta") ;;
  text <- lift (getitem delta "text") ;;
  g' <- lift (str_add g text) ;;
  modify (set_generated_text g').

(** Lines 152-153. *)
Definition on_message_stop (event : dict) : M unit :=
  body <- lift (getitem (VDict event) "messageStop") ;;
  r <- lift (getitem body "stopReason") ;;
  modify (set_message_stop r).

(** Lines 155-161. *)
Definition on_metadata (event : dict) : M unit :=
  metadata <- lift (getitem (VDict event) "metadata") ;;
  has_usage <- lift (contains "usage" metadata) ;;
  when has_usage
    (u <- lift (getitem metadata "usage") ;; modify (set_usage u)) ;;
  metadata' <- lift (getitem (VDict event) "metadata") ;;
  has_metrics <- lift (contains "metrics" metadata') ;;
  when has_metrics
    (m <- lift (getitem metadata "metrics") ;; modify (set_metrics m)).

(** The body of the [for] loop, lines 136-161: four independent [if]s. *)
Definition handle_event (event : dict) : M unit :=
  when (has_key "messageStart" event) (on_message_start event) ;;
  when (has_key "contentBlockDelta" event) (on_content_block_delta event) ;;
  when (has_key "messageStop" event) (on_message_stop event) ;;
  when (has_key "metadata" event) (on_metadata event).

(** Lines 133-161. *)
Definition consume_stream (api_inputs : dict) : M unit :=
  match converse_stream bedrock_client api_inputs with
  | StreamRaise e => lift (Raise e)
  | StreamAbsent => lift (Raise TypeError)
  | Stream events ending =>
      for_each events handle_event ;;
      match ending with
      | Some e => lift (Raise e)
      | None => ret tt
      end
  end.

(** Lines 163-175. *)
Definition read_response (api_inputs : dict) : M unit :=
  response <- lift (converse bedrock_client api_inputs) ;;
  modify (set_time_to_next_token []) ;;
  modify (set_ttft (VInt 0)) ;;
  output <- lift (getitem (VDict response) "output") ;;
  message <- lift (getitem output "message") ;;
  r <- lift (getitem message "role") ;;
  modify (set_role r) ;;
  output <- lift (getitem (VDict response) "output") ;;
  message <- lift (getitem output "message") ;;
  content <- lift (getitem message "content") ;;
  block <- lift (getitem_int content 0) ;;
  text <- lift (getitem block "text") ;;
  modify (set_generated_text text) ;;
  stop <- lift (getitem (VDict response) "stopReason") ;;
  modify (set_message_stop stop) ;;
  u <- lift (getitem (VDict response) "usage") ;;
  modify (set_usage u) ;;
  m <- lift (getitem (VDict response) "metrics") ;;
  modify (set_metrics m) ;;
  token_usage <- lift (getitem (VDict response) "usage") ;;
  ret tt.

(** Lines 132-179, the body of the [try]. *)
Definition try_body (api_inputs : dict) (stream_model : pyval) : M unit :=
  (if truthy stream_model
   then consume_stream api_inputs
   else read_response api_inputs) ;;
  u <- gets usage ;;
  received <- lift (getitem u "outputTokens") ;;
  modify (set_tokens_received received) ;;
  now <- monotonic ;;
  s <- gets start_time ;;
  modify (set_total_request_time (VFloat (now - s))) ;;
  throughput <- lift (truediv received (now - s)) ;;
  modify (set_output_throughput throughput).

(** Lines 181-185, the [except] clause. *)
Definition on_exception (e : exn) : M unit :=
  msg <- gets error_msg ;;
  set_metric ERROR_MSG msg ;;
  code <- gets error_response_code ;;
  set_metric ERROR_CODE code.

(** Lines 187-193. *)
Definition report : M unit :=
  gaps <- gets time_to_next_token ;;
  set_metric INTER_TOKEN_LAT (py_sum gaps) ;;
  t <- gets ttft ;;
  set_metric TTFT t ;;
  total <- gets total_request_time ;;
  set_metric E2E_LAT total ;;
  throughput <- gets output_throughput ;;
  set_metric REQ_OUTPUT_THROUGHPUT throughput ;;
  u <- gets usage ;;
  n <- lift (getitem u "totalTokens") ;;
  set_metric NUM_TOTAL_TOKENS n ;;
  u <- gets usage ;;
  n <- lift (getitem u "outputTokens") ;;
  set_metric NUM_OUTPUT_TOKENS n ;;
  u <- gets usage ;;
  n <- lift (getitem u "inputTokens") ;;
  set_metric NUM_INPUT_TOKENS n.

(** Lines 110-129: the locals once [start_time] and
    [most_recent_received_token_time] have been read from the clock. *)
Definition initial_locals : Locals :=
  {| role := VStr "";
     generated_text := VStr "";
     message_stop := VStr "";
     usage := VDict ∅;
     metrics := VDict ∅;
     benchmark_metrics := <[ERROR_MSG := VStr ""]> (<[ERROR_CODE := VNone]> ∅);
     time_to_next_token := [];
     tokens_received := VInt 0;
     ttft := VInt 0;
     error_response_code := VNone;
     error_msg := VStr "";
     output_throughput := VInt 0;
     total_request_time := VInt 0;
     start_time := clock 0;
     most_recent_received_token_time := clock 1;
     clock_reads := 2 |}.

(** Lines 131-185: the locals when the [try] statement is left. *)
Definition timing_engine (api_inputs : dict) (stream_model : pyval) : outcome unit * Locals :=
  try_except (try_body api_inputs stream_model) on_exception initial_locals.

(** [os.environ.get(k)] is truthy. *)
Definition env_set (environ : gmap string string) (k : string) : bool :=
  match environ !! k with
  | Some v => negb (String.eqb v "")
  | None => false
  end.

(** The whole method: what it returns or raises, and the state in which it
    leaves the [request_config] object.  The third component of the returned
    triple is that same object. *)
Definition llm_request (environ : gmap string string) (request_config : RequestConfig)
  : outcome (BenchmarkMetrics * pyval * RequestConfig) * RequestConfig :=
  if negb (env_set environ "AWS_ACCESS_KEY_ID")
  then (Raise (ValueError "AWS_ACCESS_KEY_ID must be set."), request_config)
  else if negb (env_set environ "AWS_SECRET_ACCESS_KEY")
  then (Raise (ValueError "AWS_SECRET_ACCESS_KEY must be set."), request_config)
  else if negb (env_set environ "AWS_REGION_NAME")
  then (Raise (ValueError "AWS_REGION_NAME must be set."), request_config)
  else
    match request_builder request_config with
    | (Raise e, request_config') => (Raise e, request_config')
    | (Ok (api_inputs, stream_model), request_config') =>
        let '(_, st) :=
          timing_engine (call_arguments request_config' api_inputs) stream_model in
        match report st with
        | (Ok _, st') =>
            (Ok (benchmark_metrics st', generated_text st', request_config'),
             request_config')
        | (Raise e, _) => (Raise e, request_config')
        end
    end.

End Engine.

(** ** Derived notions for the request builder *)

(** The three environment variables checked at lines 37-42 are set. *)
Definition credentials_set (environ : gmap string string) : bool :=
  env_set environ "AWS_ACCESS_KEY_ID"
  && env_set environ "AWS_SECRET_ACCESS_KEY"
  && env_set environ "AWS_REGION_NAME".

(** The [api_inputs] dictionary of an outcome of the builder. *)
Definition api_inputs_of (o : outcome (gmap string argval * pyval))
  : outcome (gmap string argval) :=
  match o with
  | Ok (api_inputs, _) => Ok api_inputs
  | Raise e => Raise e
  end.

(** The call arguments of an outcome of the builder, as they are passed when
    the shared object is in state [request_config]. *)
Definition built_arguments (request_config : RequestConfig)
  (o : outcome (gmap string argval * pyval)) : outcome dict :=
  match api_inputs_of o with
  | Ok api_inputs => Ok (call_arguments request_config api_inputs)
  | Raise e => Raise e
  end.

(** The state in which lines 57-63 leave a [sampling_params] dictionary. *)
Definition normalized (d : dict) : dict :=
  delete "stream"
    (match d !! "max_tokens" with
     | Some v => delete "max_tokens" (<["maxTokens" := v]> d)
     | None => d
     end).

(** ** Stream events as variants

    An event object is read through the four key tests of the loop body, one
    after the other.  [variants] lists, in that order, the parts of an event
    that the loop body recognises, and [transition] is the branch that handles
    one part, with the part's value already looked up. *)

Inductive StreamEvent : Type :=
| MessageStart (body : pyval)
| ContentDelta (body : pyval)
| MessageStop (body : pyval)
| Metadata (body : pyval).

Definition variant_of (key : string) (wrap : pyval -> StreamEvent) (event : dict)
  : list StreamEvent :=
  match event !! key with
  | Some body => [wrap body]
  | None => []
  end.

Definition variants (event : dict) : list StreamEvent :=
  variant_of "messageStart" MessageStart event
  ++ variant_of "contentBlockDelta" ContentDelta event
  ++ variant_of "messageStop" MessageStop event
  ++ variant_of "metadata" Metadata event.

Section Variants.

Variable clock : nat -> float.

Definition transition (v : StreamEvent) : M unit :=
  match v with
  | MessageStart body =>
      r <- lift (getitem body "role") ;;
      modify (set_role r)
  | ContentDelta body =>
      record_arrival clock ;;
      g <- gets generated_text ;;
      delta <- lift (getitem body "delta") ;;
      text <- lift (getitem delta "text") ;;
      g' <- lift (str_add g text) ;;
      modify (set_generated_text g')
  | MessageStop body =>
      r <- lift (getitem body "stopReason") ;;
      modify (set_message_stop r)
  | Metadata body =>
      has_usage <- lift (contains "usage" body) ;;
      when has_usage
        (u <- lift (getitem body "usage") ;; modify (set_usage u)) ;;
      has_metrics <- lift (contains "metrics" body) ;;
      when has_metrics
        (m <- lift (getitem body "metrics") ;; modify (set_metrics m))
  end.

End Variants.

(** ** The text a stream delivers *)

(** The text a part carries: that of a content delta whose
    [['delta']['text']] is a string. *)
Definition carried_text (v : StreamEvent) : option string :=
  match v with
  | ContentDelta body =>
      match getitem body "delta" with
      | Ok delta =>
          match getitem delta "text" with
          | Ok (VStr s) => Some s
          | _ => None
          end
      | Raise _ => None
      end
  | _ => None
  end.

Definition is_ok {A : Type} (o : outcome A) : bool :=
  match o with Ok _ => true | Raise _ => false end.

(** A part is well formed when the fields that its branch reads are there. *)
Definition well_formed (v : StreamEvent) : bool :=
  match v with
  | MessageStart body => is_ok (getitem body "role")
  | ContentDelta body => bool_decide (is_Some (carried_text v))
  | MessageStop body => is_ok (getitem body "stopReason")
  | Metadata body =>
      match contains "usage" body, contains "metrics" body with
      | Ok has_usage, Ok has_metrics =>
          (negb has_usage || is_ok (getitem body "usage"))
          && (negb has_metrics || is_ok (getitem body "metrics"))
      | _, _ => false
      end
  end.

Fixpoint take_while {A : Type} (p : A -> bool) (l : list A) : list A :=
  match l with
  | [] => []
  | x :: r => if p x then x :: take_while p r else []
  end.

(** The parts delivered before the stream ended or its handling failed. *)
Definition observed (events : list dict) : list StreamEvent :=
  take_while well_formed (flat_map variants events).

Definition join (l : list string) : string := foldr String.append "" l.

(** The texts of the observed content deltas, concatenated in arrival order. *)
Definition observed_text (events : list dict) : string :=
  join (omap carried_text (observed events)).

Definition reply_text (reply : stream_reply) : string :=
  match reply with
  | Stream events _ => observed_text events
  | _ => ""
  end.

(** ** Invariants *)

(** Invariants of statements. *)
Definition invariant {A : Type} (I : Locals -> Prop) (m : M A) : Prop :=
  forall st, I st -> I (m st).2.

(** The error variables and the error entries of the record hold what lines
    117-118 and 123-124 gave them. *)
Definition error_fields_blank (st : Locals) : Prop :=
  error_msg st = VStr ""
  /\ error_response_code st = VNone
  /\ benchmark_metrics st !! ERROR_MSG = Some (VStr "")
  /\ benchmark_metrics st !! ERROR_CODE = Some VNone.

(** ** Well-formed blocking responses *)

(** A response of the blocking call that has every field lines 169-175 read,
    with generated text [text] and usage mapping [u]. *)
Definition blocking_response (response : dict) (text u : pyval) : Prop :=
  exists output message content block : pyval,
    response !! "output" = Some output
    /\ getitem output "message" = Ok message
    /\ is_ok (getitem message "role") = true
    /\ getitem message "content" = Ok content
    /\ getitem_int content 0 = Ok block
    /\ getitem block "text" = Ok text
    /\ is_Some (response !! "stopReason")
    /\ response !! "usage" = Some u
    /\ is_Some (response !! "metrics").

(** ** Clocks and arrival times *)

(** A clock that advances by one second at every reading. *)
Definition ticking_clock (n : nat) : float := float_of_Z (Z.of_nat n).

(** A simulated clock that stands still while an event is handled: call start
    is at [s], both readings taken for the [i]-th content delta return
    [s + arrivals !! i], and every later reading returns [s + finish], the
    sums being float sums. *)
Definition simulated_clock (s : float) (arrivals : list float) (finish : float) (n : nat) : float :=
  match n with
  | 0 | 1 => s
  | S (S k) =>
      match arrivals !! (k / 2)%nat with
      | Some a => (s + a)%float
      | None => (s + finish)%float
      end
  end.

Definition half : float := 0.5%float.


(** ** Inputs used in the examples *)

Definition environ_ok : gmap string string :=
  <["AWS_ACCESS_KEY_ID" := "key"]>
    (<["AWS_SECRET_ACCESS_KEY" := "secret"]>
       (<["AWS_REGION_NAME" := "us-east-1"]> ∅)).

(** [{"max_tokens": 100, "stream": True}]. *)
Definition sampling_example : dict :=
  <["max_tokens" := VInt 100]> (<["stream" := VBool true]> ∅).

Definition request_example : RequestConfig :=
  {| model := "model-a";
     prompt := ("Say hello", 2%Z);
     sampling_params := Some sampling_example;
     additional_request_body := None |}.

(** What the builder makes of [request_example]: the call arguments, and the
    state in which it leaves the object. *)
Definition example_api_inputs : gmap string argval :=
  <["inferenceConfig" := SamplingParamsRef]>
    (<["messages" :=
         Arg (VList [VDict (<["role" := VStr "user"]>
                              (<["content" := VList [VDict {["text" := VStr "Say hello"]}]]> ∅))])]>
       (<["modelId" := Arg (VStr "model-a")]> ∅)).

Definition request_example_after : RequestConfig :=
  {| model := "model-a";
     prompt := ("Say hello", 2%Z);
     sampling_params := Some {["maxTokens" := VInt 100]};
     additional_request_body := None |}.

(** A request whose [additional_request_body] carries a tool configuration,
    [{"toolConfig": {"tools": ["t"]}}]. *)
Definition request_with_tools : RequestConfig :=
  {| model := "model-a";
     prompt := ("Say hello", 2%Z);
     sampling_params := None;
     additional_request_body :=
       Some {["toolConfig" := VDict {["tools" := VList [VStr "t"]]}]} |}.

(** A request with no sampling parameters, hence not streaming. *)
Definition blocking_request : RequestConfig :=
  {| model := "model-a";
     prompt := ("Say hello", 2%Z);
     sampling_params := None;
     additional_request_body := None |}.

Definition blocking_api_inputs : gmap string argval :=
  <["messages" :=
      Arg (VList [VDict (<["role" := VStr "user"]>
                           (<["content" := VList [VDict {["text" := VStr "Say hello"]}]]> ∅))])]>
    (<["modelId" := Arg (VStr "model-a")]> ∅).

(** Event objects with a single key, as the service sends them. *)
Definition message_start_event (r : pyval) : dict :=
  {["messageStart" := VDict {["role" := r]}]}.

Definition content_delta_event (text : string) : dict :=
  {["contentBlockDelta" := VDict {["delta" := VDict {["text" := VStr text]}]}]}.

Definition message_stop_event (r : pyval) : dict :=
  {["messageStop" := VDict {["stopReason" := r]}]}.

Definition metadata_event (u : pyval) : dict :=
  {["metadata" := VDict {["usage" := u]}]}.

Definition usage_example : pyval :=
  VDict (<["inputTokens" := VInt 3]>
           (<["outputTokens" := VInt 2]> (<["totalTokens" := VInt 5]> ∅))).

(** [{"output": {"message": {"role": "assistant", "content": [{"text":
    "Hello"}]}}, "stopReason": "end_turn", "usage": {"inputTokens": 10,
    "outputTokens": 50, "totalTokens": 60}, "metrics": {"latencyMs": 100}}]. *)
Definition response_usage : pyval :=
  VDict (<["inputTokens" := VInt 10]>
           (<["outputTokens" := VInt 50]> (<["totalTokens" := VInt 60]> ∅))).

Definition response_example : dict :=
  <["output" :=
      VDict {["message" :=
                VDict (<["role" := VStr "assistant"]>
                         {["content" := VList [VDict {["text" := VStr "Hello"]}]]})]}]>
    (<["stopReason" := VStr "end_turn"]>
       (<["usage" := response_usage]>
          {["metrics" := VDict {["latencyMs" := VInt 100]}]})).


(** A provider whose calls always fail. *)
Definition unreachable_provider : Provider :=
  {| converse := fun _ => Raise (ProviderError "unreachable");
     converse_stream := fun _ => StreamRaise (ProviderError "unreachable") |}.

(** A provider whose streaming call yields [events] and then ends as
    [ending] says. *)
Definition stream_provider (events : list dict) (ending : option exn) : Provider :=
  {| converse := fun _ => Raise (ProviderError "unreachable");
     converse_stream := fun _ => Stream events ending |}.

(** A stream that delivers a message start and two content deltas and then
    ends, with neither metadata nor message stop. *)
Definition interrupted_provider : Provider :=
  stream_provider
    [message_start_event (VStr "assistant");
     content_delta_event "Hel"; content_delta_event "lo"]
    None.

(** A stream that delivers its usage and then breaks while the next event is
    awaited. *)
Definition failing_provider : Provider :=
  stream_provider
    [content_delta_event "Hel"; metadata_event usage_example; content_delta_event "lo"]
    (Some (ProviderError "connection reset")).

Definition blocking_provider : Provider :=
  {| converse := fun _ => Ok response_example;
     converse_stream := fun _ => StreamAbsent |}.

(** ** Notions used by the further properties *)

(** The value line 90, 93, 94 or 95 reads for the key [k] of
    [additional_request_body]: the entry when there is one, [""] otherwise. *)
Definition body_field (request_config : RequestConfig) (k : string) : pyval :=
  default (VStr "") (additional_request_body request_config ≫= (.!! k)).

(** The keys that [api_inputs] can hold when the builder is done. *)
Definition api_keys : list string :=
  ["modelId"; "messages"; "inferenceConfig"; "system";
   "additionalModelRequestFields"; "additionalModelResponseFieldPaths"].

(** The number of events that carry a content delta. *)
Definition count_deltas (events : list dict) : nat :=
  length (filter (fun event : dict => has_key "contentBlockDelta" event = true) events).

(** The gaps lines 141-148 append for [n] content deltas, written with the
    readings of the clock: the first is measured from [start_time], reading 0,
    and the delta number [i] from the reading that closed the delta before
    it.  Readings 0 and 1 are taken at lines 128-129, and every delta takes
    two. *)
Definition clock_gaps (clock : nat -> float) (n : nat) : list float :=
  match n with
  | 0 => []
  | S k =>
      (clock 2%nat - clock 0%nat)%float
      :: map (fun i : nat => (clock (2 * i + 2)%nat - clock (2 * i + 1)%nat)%float) (seq 1 k)
  end.

(** The locals that the timing of the stream reads and writes. *)
Definition timing_fields (st : Locals) : nat * float * list float * pyval * float :=
  (clock_reads st, start_time st, time_to_next_token st, ttft st,
   most_recent_received_token_time st).

(** Their values once [n] content deltas have been timed, when the first one
    did not arrive at time zero. *)
Definition timing_after (clock : nat -> float) (n : nat) : nat * float * list float * pyval * float :=
  ((2 * n + 2)%nat, clock 0%nat, clock_gaps clock n,
   match n with
   | 0 => VInt 0
   | S _ => VFloat (clock 2%nat - clock 0%nat)
   end,
   clock (2 * n + 1)%nat).

(** A request whose [additional_request_body] is [{"system": "Be brief",
    "additionalModelRequestFields": {"top_k": 5}, "note": 1}]: a system
    prompt, one further recognised field and one key the code does not
    know. *)
Definition request_with_system : RequestConfig :=
  {| model := "model-a";
     prompt := ("Say hello", 2%Z);
     sampling_params := Some sampling_example;
     additional_request_body :=
       Some (<["system" := VStr "Be brief"]>
               (<["additionalModelRequestFields" := VDict {["top_k" := VInt 5]}]>
                  {["note" := VInt 1]})) |}.

Definition system_api_inputs : gmap string argval :=
  <["additionalModelRequestFields" := Arg (VDict {["top_k" := VInt 5]})]>
    (<["system" := Arg (VList [VDict {["text" := VStr "Be brief"]}])]>
       example_api_inputs).

Definition request_with_system_after : RequestConfig :=
  {| model := "model-a";
     prompt := ("Say hello", 2%Z);
     sampling_params := Some {["maxTokens" := VInt 100]};
     additional_request_body := additional_request_body request_with_system |}.

(** An event that carries at least one of the four keys the loop tests. *)
Definition recognised (event : dict) : bool :=
  has_key "messageStart" event || has_key "contentBlockDelta" event
  || has_key "messageStop" event || has_key "metadata" event.

(** [{"contentBlockDelta": {"delta": {"toolUse": {"input": "{"}}}}], a
    content delta that carries no text. *)
Definition tool_use_event : dict :=
  {["contentBlockDelta" :=
      VDict {["delta" := VDict {["toolUse" := VDict {["input" := VStr "{"]}]}]}]}.

Definition is_content_delta (v : StreamEvent) : bool :=
  match v with ContentDelta _ => true | _ => false end.

(** A provider whose blocking call returns [response]. *)
Definition reply_provider (response : dict) : Provider :=
  {| converse := fun _ => Ok response;
     converse_stream := fun _ => StreamAbsent |}.

(** [{"output": {"message": {"role": "assistant", "content": []}}, "usage":
    {"inputTokens": 10, "outputTokens": 50, "totalTokens": 60}}]: a reply
    with its usage and no content block. *)
Definition textless_response : dict :=
  <["output" :=
      VDict {["message" :=
                VDict (<["role" := VStr "assistant"]> {["content" := VList []]})]}]>
    {["usage" := response_usage]}.

(** The usage an event reports: the [usage] entry of its [metadata]
    dictionary, if it has both. *)
Definition reported_usage (event : dict) : option pyval :=
  match event !! "metadata" with
  | Some (VDict metadata) => metadata !! "usage"
  | _ => None
  end.

(** The usage that the last reporting event of a stream reports, the empty
    dictionary of line 113 when none does. *)
Definition last_usage (events : list dict) : pyval :=
  default (VDict ∅) (last (omap reported_usage events)).

(** The local [usage] after a part that is handled without failure. *)
Definition usage_after (u : pyval) (v : StreamEvent) : pyval :=
  match v with
  | Metadata (VDict metadata) => default u (metadata !! "usage")
  | _ => u
  end.

(** * Properties *)

(** ** Strings *)

Lemma string_app_nil_r (s : string) : s +:+ "" = s.
Proof.
  induction s as [|c s IH]; [done|].
  change (String c (s +:+ "") = String c s). by rewrite IH.
Qed.

Lemma string_app_assoc (s t u : string) : (s +:+ t) +:+ u = s +:+ (t +:+ u).
Proof.
  induction s as [|c s IH]; [done|].
  change (String c ((s +:+ t) +:+ u) = String c (s +:+ (t +:+ u))). by rewrite IH.
Qed.

(** ** The request builder *)

Lemma has_key_false {A : Type} (k : string) (d : gmap string A) :
  has_key k d = false <-> d !! k = None.
Proof. unfold has_key. destruct (d !! k); split; congruence. Qed.

Lemma has_key_true {A : Type} (k : string) (d : gmap string A) :
  has_key k d = true <-> is_Some (d !! k).
Proof.
  unfold has_key. destruct (d !! k); split; first [done | by eexists | by intros [? ?]].
Qed.

Lemma nonempty_truthy (d : dict) (k : string) (v : pyval) :
  d !! k = Some v -> truthy (VDict d) = true.
Proof.
  intros Hk. simpl. destruct (size d) eqn:E; [|done].
  apply map_size_empty_iff in E. subst d. by rewrite lookup_empty in Hk.
Qed.

Lemma rename_max_tokens_spec (d : dict) :
  rename_max_tokens (Some d) =
  Some (match d !! "max_tokens" with
        | Some v => delete "max_tokens" (<["maxTokens" := v]> d)
        | None => d
        end).
Proof.
  unfold rename_max_tokens, has_key, opt_truthy.
  destruct (d !! "max_tokens") eqn:E; [|by rewrite andb_false_r].
  by rewrite (nonempty_truthy _ _ _ E).
Qed.

Lemma extract_stream_spec (d : dict) :
  extract_stream (Some d) =
  (default (VBool false) (d !! "stream"), Some (delete "stream" d)).
Proof.
  unfold extract_stream, has_key, opt_truthy.
  destruct (d !! "stream") eqn:E.
  - by rewrite (nonempty_truthy _ _ _ E).
  - rewrite andb_false_r. simpl. by rewrite delete_id.
Qed.

Lemma builder_sampling_params (rc : RequestConfig) :
  sampling_params (request_builder rc).2 = normalized <$> sampling_params rc.
Proof.
  unfold request_builder. destruct (prompt rc) as [p n].
  destruct (sampling_params rc) as [d|] eqn:E.
  - rewrite rename_max_tokens_spec, extract_stream_spec.
    destruct (additional_request_body rc) as [b|]; [|done].
    by destruct (add_request_body _ _).
  - simpl. destruct (additional_request_body rc) as [b|]; [|done].
    by destruct (add_request_body _ _).
Qed.

Lemma normalized_lookup (d : dict) (k : string) :
  normalized d !! k =
  if decide (k = "stream") then None
  else if decide (k = "max_tokens") then None
  else if decide (k = "maxTokens")
       then match d !! "max_tokens" with Some v => Some v | None => d !! "maxTokens" end
       else d !! k.
Proof.
  unfold normalized. rewrite lookup_delete.
  destruct (decide ("stream" = k)) as [<-|Hs].
  { by rewrite decide_True. }
  rewrite decide_False by congruence.
  destruct (d !! "max_tokens") as [v|] eqn:E.
  - rewrite lookup_delete.
    destruct (decide ("max_tokens" = k)) as [<-|Hm]; [done|].
    rewrite decide_False by congruence.
    rewrite lookup_insert.
    destruct (decide ("maxTokens" = k)) as [<-|Ht]; [done|].
    by rewrite decide_False by congruence.
  - destruct (decide (k = "max_tokens")) as [->|Hm]; [done|].
    by destruct (decide (k = "maxTokens")) as [->|Ht].
Qed.

Lemma normalized_id (d : dict) :
  normalized d = d <-> d !! "max_tokens" = None /\ d !! "stream" = None.
Proof.
  split.
  - intros H. split.
    + rewrite <- H. by rewrite normalized_lookup.
    + rewrite <- H. by rewrite normalized_lookup.
  - intros [Hm Hs]. unfold normalized. rewrite Hm. by apply delete_id.
Qed.

Lemma normalized_idem (d : dict) : normalized (normalized d) = normalized d.
Proof. apply normalized_id. by rewrite !normalized_lookup. Qed.

(** The object is left in the same state whether or not the builder raises,
    and [llm_request] leaves it in the state the builder does. *)
Lemma llm_request_object_state (clock : nat -> float) (bedrock_client : Provider)
    (environ : gmap string string) (rc : RequestConfig) :
  env_set environ "AWS_ACCESS_KEY_ID" = true ->
  env_set environ "AWS_SECRET_ACCESS_KEY" = true ->
  env_set environ "AWS_REGION_NAME" = true ->
  (llm_request clock bedrock_client environ rc).2 = (request_builder rc).2.
Proof.
  intros H1 H2 H3. unfold llm_request. rewrite H1, H2, H3. simpl.
  destruct (request_builder rc) as [[[args sm]|e] rc']; [|done].
  destruct (timing_engine _ _ _ _) as [o st].
  by destruct (report st) as [[?|?] ?].
Qed.

(** Line 107 raises for every request whose tool configuration is truthy. *)
Lemma tool_config_unbound (rc : RequestConfig) (body : dict) (v : pyval) :
  additional_request_body rc = Some body ->
  body !! "toolConfig" = Some v ->
  truthy v = true ->
  (request_builder rc).1 = Raise (NameError "tool_config").
Proof.
  intros Hb Hv Ht. unfold request_builder.
  destruct (prompt rc) as [p n]. destruct (extract_stream _) as [sm ic].
  rewrite Hb. unfold add_request_body. rewrite Hv. simpl. by rewrite Ht.
Qed.

(** C3, as stated, fails: on [{"max_tokens": 100, "stream": True}] the
    caller's [sampling_params] object is not what it was once lines 55-63 have
    run, both after the builder alone and after the whole of [llm_request]. *)
Lemma sampling_params_not_preserved :
  sampling_params (request_builder request_example).2
    <> sampling_params request_example
  /\ sampling_params
       (llm_request ticking_clock unreachable_provider environ_ok request_example).2
    <> sampling_params request_example.
Proof.
  assert (H : sampling_params (request_builder request_example).2
              <> sampling_params request_example).
  { rewrite builder_sampling_params. intros H.
    apply (f_equal (fun o : option dict => o ≫= (.!! "stream"))) in H.
    cbn [request_example sampling_params fmap option_fmap option_map mbind option_bind] in H.
    rewrite normalized_lookup in H. vm_compute in H. discriminate. }
  split; [done|].
  by rewrite llm_request_object_state.
Qed.

Lemma sampling_params_none_stays (rc : RequestConfig) :
  sampling_params rc = None -> sampling_params (request_builder rc).2 = None.
Proof. rewrite builder_sampling_params. by intros ->. Qed.

(** C3, amended: the builder edits the caller's [sampling_params] mapping in
    place.  Afterwards the mapping holds neither [max_tokens] nor [stream],
    holds under [maxTokens] the former value of [max_tokens] when there was
    one, keeps every other key as it was, and is unchanged exactly when it
    held neither [max_tokens] nor [stream]. *)
Theorem sampling_params_edited_in_place (rc : RequestConfig) (d : dict) :
  sampling_params rc = Some d ->
  exists d' : dict,
    sampling_params (request_builder rc).2 = Some d'
    /\ d' !! "max_tokens" = None
    /\ d' !! "stream" = None
    /\ d' !! "maxTokens" =
         match d !! "max_tokens" with Some v => Some v | None => d !! "maxTokens" end
    /\ (forall k, k <> "max_tokens" -> k <> "maxTokens" -> k <> "stream" ->
        d' !! k = d !! k)
    /\ (d' = d <-> d !! "max_tokens" = None /\ d !! "stream" = None).
Proof.
  rewrite builder_sampling_params. intros ->. exists (normalized d). simpl.
  split; [done|]. rewrite !normalized_lookup. simpl.
  repeat split; try done.
  - intros k Hm Ht Hs. rewrite normalized_lookup.
    by rewrite !decide_False by done.
  - by apply normalized_id.
  - by apply normalized_id.
  - by apply normalized_id.
Qed.

Lemma sampling_params_edited_in_place_witness :
  exists d' : dict,
    sampling_params (request_builder request_example).2 = Some d'
    /\ d' !! "max_tokens" = None
    /\ d' !! "stream" = None
    /\ d' !! "maxTokens" = Some (VInt 100).
Proof.
  destruct (sampling_params_edited_in_place request_example sampling_example eq_refl)
    as (d' & H1 & H2 & H3 & H4 & _).
  exists d'. repeat split; try done.
Defined.

(** ** Idempotence of the builder *)

Lemma extract_rename (sp : option dict) :
  (extract_stream (rename_max_tokens sp)).2 = normalized <$> sp.
Proof.
  destruct sp as [d|]; [|done].
  by rewrite rename_max_tokens_spec, extract_stream_spec.
Qed.

Lemma builder_state (rc : RequestConfig) :
  (request_builder rc).2 =
  {| model := model rc;
     prompt := prompt rc;
     sampling_params := normalized <$> sampling_params rc;
     additional_request_body := additional_request_body rc |}.
Proof.
  unfold request_builder. destruct (prompt rc) as [p n] eqn:Ep.
  rewrite <- extract_rename.
  destruct (extract_stream _) as [sm ic]. simpl.
  destruct (additional_request_body rc) as [b|]; [|done].
  by destruct (add_request_body _ _).
Qed.

(** The [api_inputs] dictionary depends on [sampling_params] only through
    the truth value of the dictionary left by lines 57-63. *)
Lemma builder_inputs_congruence (rc rc' : RequestConfig) :
  model rc = model rc' ->
  prompt rc = prompt rc' ->
  additional_request_body rc = additional_request_body rc' ->
  opt_truthy (normalized <$> sampling_params rc)
    = opt_truthy (normalized <$> sampling_params rc') ->
  api_inputs_of (request_builder rc).1 = api_inputs_of (request_builder rc').1.
Proof.
  intros Hm Hp Hb Ht. unfold request_builder.
  rewrite <- Hm, <- Hp, <- Hb. destruct (prompt rc) as [p n].
  rewrite <- !extract_rename in Ht.
  destruct (extract_stream (rename_max_tokens (sampling_params rc))) as [sm ic].
  destruct (extract_stream (rename_max_tokens (sampling_params rc'))) as [sm' ic'].
  simpl in Ht. rewrite <- Ht.
  destruct (additional_request_body rc) as [b|]; [|done].
  by destruct (add_request_body _ _).
Qed.

(** C8: running the builder a second time on the same [request_config]
    object leaves the object as the first run left it and yields the same
    call arguments as the first run (or the same exception, when line 107
    raises). *)
Theorem request_builder_twice (rc : RequestConfig) :
  let first := request_builder rc in
  let second := request_builder first.2 in
  second.2 = first.2
  /\ built_arguments second.2 second.1 = built_arguments first.2 first.1.
Proof.
  intros first second.
  assert (Hst : second.2 = first.2).
  { unfold second, first. rewrite !builder_state. simpl.
    f_equal. destruct (sampling_params rc) as [d|]; [|done].
    simpl. by rewrite normalized_idem. }
  split; [done|].
  unfold built_arguments. rewrite Hst.
  replace (api_inputs_of second.1) with (api_inputs_of first.1); [done|].
  unfold second, first. apply builder_inputs_congruence;
    rewrite builder_state; simpl; try done.
  destruct (sampling_params rc) as [d|]; [|done].
  simpl. by rewrite normalized_idem.
Qed.

(** On the example request both runs pass
    [inferenceConfig = {"maxTokens": 100}]. *)
Example request_builder_example :
  let first := request_builder request_example in
  let second := request_builder first.2 in
  exists args : dict,
    built_arguments first.2 first.1 = Ok args
    /\ built_arguments second.2 second.1 = Ok args
    /\ args !! "inferenceConfig" = Some (VDict {["maxTokens" := VInt 100]}).
Proof.
  exists (call_arguments (request_builder request_example).2 example_api_inputs).
  repeat split; reflexivity.
Qed.

(** The stream directive, which is not part of the call arguments, is lost
    on the second run: the first run removed it from the shared object. *)
Example stream_directive_lost :
  let first := request_builder request_example in
  let second := request_builder first.2 in
  (snd <$> (match first.1 with Ok x => Some x | Raise _ => None end)) = Some (VBool true)
  /\ (snd <$> (match second.1 with Ok x => Some x | Raise _ => None end)) = Some (VBool false).
Proof. repeat split; reflexivity. Qed.

(** ** The unbound name at line 107 *)

(** C7: on a request whose [additional_request_body] is
    [{"toolConfig": {"tools": ["t"]}}] the builder does not copy the value
    into the call arguments: it raises [NameError], and so does
    [llm_request]. *)
Theorem tool_config_raises_name_error :
  (request_builder request_with_tools).1 = Raise (NameError "tool_config")
  /\ (llm_request ticking_clock unreachable_provider environ_ok request_with_tools).1
     = Raise (NameError "tool_config").
Proof.
  split.
  - by apply (tool_config_unbound request_with_tools
                {["toolConfig" := VDict {["tools" := VList [VStr "t"]]}]}
                (VDict {["tools" := VList [VStr "t"]]})).
  - reflexivity.
Qed.

(** ** Statements: sequencing and invariants *)

Lemma bind_ext {A B : Type} (m m' : M A) (k k' : A -> M B) (st : Locals) :
  m st = m' st -> (forall a st', k a st' = k' a st') ->
  bind m k st = bind m' k' st.
Proof.
  intros Hm Hk. unfold bind. rewrite Hm.
  by destruct (m' st) as [[a|e] st'].
Qed.

Lemma bind_ret_unit (m : M unit) (st : Locals) : bind m (fun _ => ret tt) st = m st.
Proof. unfold bind, ret. by destruct (m st) as [[[]|e] st']. Qed.

Lemma bind_assoc {A B C : Type} (m : M A) (k : A -> M B) (h : B -> M C) (st : Locals) :
  bind (bind m k) h st = bind m (fun a => bind (k a) h) st.
Proof. unfold bind. by destruct (m st) as [[a|e] st']. Qed.

Lemma for_each_app {A : Type} (l1 l2 : list A) (f : A -> M unit) (st : Locals) :
  for_each (l1 ++ l2) f st = bind (for_each l1 f) (fun _ => for_each l2 f) st.
Proof.
  revert st. induction l1 as [|x l1 IH]; intros st; [done|].
  simpl. rewrite bind_assoc. by apply bind_ext.
Qed.

Lemma for_each_flat_map {A B : Type} (g : A -> list B) (f : A -> M unit)
    (h : B -> M unit) (l : list A) :
  (forall x st, f x st = for_each (g x) h st) ->
  forall st, for_each l f st = for_each (flat_map g l) h st.
Proof.
  intros Hf. induction l as [|x l IH]; intros st; [done|].
  simpl. rewrite for_each_app. by apply bind_ext.
Qed.

Section Invariants.

Context {I : Locals -> Prop}.

Lemma invariant_ret {A : Type} (a : A) : invariant I (ret a).
Proof. by intros st. Qed.

Lemma invariant_lift {A : Type} (o : outcome A) : invariant I (lift o).
Proof. by intros st. Qed.

Lemma invariant_gets {A : Type} (f : Locals -> A) : invariant I (gets f).
Proof. by intros st. Qed.

Lemma invariant_modify (f : Locals -> Locals) :
  (forall st, I st -> I (f st)) -> invariant I (modify f).
Proof. intros Hf st. apply Hf. Qed.

Lemma invariant_bind {A B : Type} (m : M A) (k : A -> M B) :
  invariant I m -> (forall a, invariant I (k a)) -> invariant I (bind m k).
Proof.
  intros Hm Hk st HI. unfold bind. specialize (Hm st HI).
  destruct (m st) as [[a|e] st']; [|done]. by apply Hk.
Qed.

Lemma invariant_when (b : bool) (m : M unit) :
  invariant I m -> invariant I (when b m).
Proof. intros Hm. destruct b; [done|]. apply invariant_ret. Qed.

Lemma invariant_if {A : Type} (b : bool) (m m' : M A) :
  invariant I m -> invariant I m' -> invariant I (if b then m else m').
Proof. by destruct b. Qed.

Lemma invariant_for_each {A : Type} (l : list A) (f : A -> M unit) :
  (forall x, invariant I (f x)) -> invariant I (for_each l f).
Proof.
  intros Hf. induction l as [|x l IH]; [apply invariant_ret|].
  simpl. by apply invariant_bind.
Qed.

Lemma invariant_try_except (body : M unit) (handler : exn -> M unit) :
  invariant I body -> (forall e, invariant I (handler e)) ->
  invariant I (try_except body handler).
Proof.
  intros Hb Hh st HI. unfold try_except. specialize (Hb st HI).
  destruct (body st) as [[a|e] st']; [done|]. by apply Hh.
Qed.

End Invariants.

Create HintDb inv discriminated.
#[local] Hint Resolve invariant_ret invariant_lift invariant_gets invariant_bind
  invariant_when invariant_if invariant_for_each invariant_try_except : inv.
#[local] Hint Extern 1 (invariant _ (modify _)) =>
  apply invariant_modify; intros ? ?; simpl; assumption : inv.
#[local] Hint Extern 4 (invariant _ (match ?x with _ => _ end)) => destruct x : inv.

Lemma invariant_monotonic (I : Locals -> Prop) (clock : nat -> float) :
  (forall st n, I st -> I (set_clock_reads n st)) -> invariant I (monotonic clock).
Proof. intros H st HI. by apply H. Qed.

#[local] Hint Extern 1 (invariant _ (monotonic _)) =>
  apply invariant_monotonic; intros ? ? ?; simpl; assumption : inv.

Lemma invariant_set_metric (I : Locals -> Prop) (k : metric_key) (v : pyval) :
  (forall st m, I st -> I (set_benchmark_metrics m st)) -> invariant I (set_metric k v).
Proof. intros H st HI. by apply H. Qed.

#[local] Hint Extern 1 (invariant _ (set_metric _ _)) =>
  apply invariant_set_metric; intros ? ? ?; simpl; assumption : inv.

Lemma bind_tail {A B : Type} (I : Locals -> Prop) (m : M A) (k : A -> M B) (st : Locals) :
  (forall a, invariant I (k a)) -> I (m st).2 -> I (bind m k st).2.
Proof.
  intros Hk HI. unfold bind. destruct (m st) as [[a|e] st']; [|done]. by apply Hk.
Qed.

Lemma try_except_tail (I : Locals -> Prop) (body : M unit) (handler : exn -> M unit)
    (st : Locals) :
  (forall e, invariant I (handler e)) -> I (body st).2 -> I (try_except body handler st).2.
Proof.
  intros Hh HI. unfold try_except. destruct (body st) as [[a|e] st']; [done|].
  by apply Hh.
Qed.

Lemma for_each_cons_ok {A : Type} (f : A -> M unit) (x : A) (l : list A)
    (st st' : Locals) :
  f x st = (Ok tt, st') -> for_each (x :: l) f st = for_each l f st'.
Proof. intros H. simpl. unfold bind. by rewrite H. Qed.

(** ** Events as sequences of variants *)

Lemma when_variant (clock : nat -> float) (key : string) (wrap : pyval -> StreamEvent)
    (handler : dict -> M unit) (event : dict) (st : Locals) :
  (forall body st', event !! key = Some body ->
     handler event st' = transition clock (wrap body) st') ->
  when (has_key key event) (handler event) st
  = for_each (variant_of key wrap event) (transition clock) st.
Proof.
  intros H. unfold has_key, variant_of.
  destruct (event !! key) as [body|]; [|done].
  simpl. rewrite bind_ret_unit. by apply H.
Qed.

(** The loop body applies, in the order of the four tests, the branch of
    every recognised key that the event carries. *)
Lemma handle_event_variants (clock : nat -> float) (event : dict) (st : Locals) :
  handle_event clock event st = for_each (variants event) (transition clock) st.
Proof.
  unfold handle_event, variants.
  rewrite for_each_app. apply bind_ext; [|intros _ st1].
  { apply when_variant. intros body st' Hb.
    unfold on_message_start, getitem at 1. by rewrite Hb. }
  rewrite for_each_app. apply bind_ext; [|intros _ st2].
  { apply when_variant. intros body st' Hb.
    unfold on_content_block_delta, transition.
    apply bind_ext; [done|intros _ ?]. apply bind_ext; [done|intros g ?].
    unfold getitem at 1. by rewrite Hb. }
  rewrite for_each_app. apply bind_ext; [|intros _ st3].
  { apply when_variant. intros body st' Hb.
    unfold on_message_stop, getitem at 1. by rewrite Hb. }
  apply when_variant. intros body st' Hb.
  assert (Hg : getitem (VDict event) "metadata" = Ok body) by (simpl; by rewrite Hb).
  unfold on_metadata, transition. by rewrite Hg.
Qed.

(** ** The returned record *)

Lemma report_ok (st : Locals) (tot out inp : pyval) :
  getitem (usage st) "totalTokens" = Ok tot ->
  getitem (usage st) "outputTokens" = Ok out ->
  getitem (usage st) "inputTokens" = Ok inp ->
  exists m : BenchmarkMetrics,
    report st = (Ok tt, set_benchmark_metrics m st)
    /\ m !! INTER_TOKEN_LAT = Some (py_sum (time_to_next_token st))
    /\ m !! TTFT = Some (ttft st)
    /\ m !! E2E_LAT = Some (total_request_time st)
    /\ m !! REQ_OUTPUT_THROUGHPUT = Some (output_throughput st)
    /\ m !! NUM_TOTAL_TOKENS = Some tot
    /\ m !! NUM_OUTPUT_TOKENS = Some out
    /\ m !! NUM_INPUT_TOKENS = Some inp
    /\ m !! ERROR_MSG = benchmark_metrics st !! ERROR_MSG
    /\ m !! ERROR_CODE = benchmark_metrics st !! ERROR_CODE.
Proof.
  intros Ht Ho Hi. eexists. split.
  - unfold report, bind, gets, set_metric, modify, lift. simpl.
    rewrite Ht, Ho, Hi. reflexivity.
  - by repeat split; simplify_map_eq.
Qed.

Lemma report_raises (st : Locals) (e : exn) :
  getitem (usage st) "totalTokens" = Raise e -> (report st).1 = Raise e.
Proof.
  intros Ht. unfold report, bind, gets, set_metric, modify, lift. simpl.
  by rewrite Ht.
Qed.

Lemma credentials_set_true (environ : gmap string string) :
  credentials_set environ = true ->
  env_set environ "AWS_ACCESS_KEY_ID" = true
  /\ env_set environ "AWS_SECRET_ACCESS_KEY" = true
  /\ env_set environ "AWS_REGION_NAME" = true.
Proof.
  unfold credentials_set. intros H.
  apply andb_true_iff in H as [H H3]. apply andb_true_iff in H as [H1 H2]. done.
Qed.

(** With the credentials set and the builder done, the method returns or
    raises as [report] does on the locals left by the [try] statement. *)
Lemma llm_request_unfold (clock : nat -> float) (bedrock_client : Provider)
    (environ : gmap string string) (rc rc' : RequestConfig)
    (api_inputs : gmap string argval) (stream_model : pyval) :
  credentials_set environ = true ->
  request_builder rc = (Ok (api_inputs, stream_model), rc') ->
  llm_request clock bedrock_client environ rc =
  let st := (timing_engine clock bedrock_client
               (call_arguments rc' api_inputs) stream_model).2 in
  match report st with
  | (Ok _, st') => (Ok (benchmark_metrics st', generated_text st', rc'), rc')
  | (Raise e, _) => (Raise e, rc')
  end.
Proof.
  intros (H1 & H2 & H3)%credentials_set_true Hb. unfold llm_request.
  rewrite H1, H2, H3, Hb. simpl.
  by destruct (timing_engine _ _ _ _).
Qed.

Lemma llm_request_returns (clock : nat -> float) (bedrock_client : Provider)
    (environ : gmap string string) (rc rc' : RequestConfig)
    (api_inputs : gmap string argval) (stream_model : pyval)
    (st : Locals) (tot out inp : pyval) :
  credentials_set environ = true ->
  request_builder rc = (Ok (api_inputs, stream_model), rc') ->
  (timing_engine clock bedrock_client (call_arguments rc' api_inputs) stream_model).2 = st ->
  getitem (usage st) "totalTokens" = Ok tot ->
  getitem (usage st) "outputTokens" = Ok out ->
  getitem (usage st) "inputTokens" = Ok inp ->
  exists m : BenchmarkMetrics,
    llm_request clock bedrock_client environ rc = (Ok (m, generated_text st, rc'), rc')
    /\ m !! INTER_TOKEN_LAT = Some (py_sum (time_to_next_token st))
    /\ m !! TTFT = Some (ttft st)
    /\ m !! E2E_LAT = Some (total_request_time st)
    /\ m !! REQ_OUTPUT_THROUGHPUT = Some (output_throughput st)
    /\ m !! NUM_TOTAL_TOKENS = Some tot
    /\ m !! NUM_OUTPUT_TOKENS = Some out
    /\ m !! NUM_INPUT_TOKENS = Some inp
    /\ m !! ERROR_MSG = benchmark_metrics st !! ERROR_MSG
    /\ m !! ERROR_CODE = benchmark_metrics st !! ERROR_CODE.
Proof.
  intros Hc Hb Hst Ht Ho Hi.
  rewrite (llm_request_unfold _ _ _ _ _ _ _ Hc Hb). rewrite Hst. simpl.
  destruct (report_ok st tot out inp Ht Ho Hi) as (m & -> & Hm).
  by exists m.
Qed.

(** When the usage mapping has no [totalTokens] entry, line 191 raises, and
    the exception leaves the method. *)
Lemma llm_request_raises (clock : nat -> float) (bedrock_client : Provider)
    (environ : gmap string string) (rc rc' : RequestConfig)
    (api_inputs : gmap string argval) (stream_model : pyval) (e : exn) :
  credentials_set environ = true ->
  request_builder rc = (Ok (api_inputs, stream_model), rc') ->
  getitem (usage (timing_engine clock bedrock_client
                    (call_arguments rc' api_inputs) stream_model).2) "totalTokens"
    = Raise e ->
  (llm_request clock bedrock_client environ rc).1 = Raise e.
Proof.
  intros Hc Hb He. rewrite (llm_request_unfold _ _ _ _ _ _ _ Hc Hb). simpl.
  pose proof (report_raises _ _ He) as Hr.
  by destruct (report _) as [[[]|e'] st']; simpl in Hr; [|injection Hr as ->].
Qed.

(** ** The generated text *)

Lemma record_arrival_text (clock : nat -> float) (x : pyval) :
  invariant (fun st => generated_text st = x) (record_arrival clock).
Proof. unfold record_arrival. eauto 20 with inv. Qed.

Lemma record_arrival_ok (clock : nat -> float) (st : Locals) :
  (record_arrival clock st).1 = Ok tt.
Proof.
  unfold record_arrival, bind, gets, monotonic, modify. simpl.
  by destruct (truthy (ttft st)).
Qed.

(** A transition succeeds exactly on a well-formed part, and then appends the
    text the part carries; when it raises, the text is as before. *)
Lemma transition_text (clock : nat -> float) (v : StreamEvent) (st : Locals) (g : string) :
  generated_text st = VStr g ->
  match transition clock v st with
  | (Ok _, st') =>
      well_formed v = true
      /\ generated_text st' = VStr (g +:+ default "" (carried_text v))
  | (Raise _, st') =>
      well_formed v = false /\ generated_text st' = VStr g
  end.
Proof.
  intros Hg. destruct v as [body|body|body|body]; simpl.
  - unfold bind, lift, modify. destruct (getitem body "role"); simpl;
      by rewrite ?string_app_nil_r.
  - unfold bind at 1.
    pose proof (record_arrival_ok clock st) as Hok.
    pose proof (record_arrival_text clock (VStr g) st Hg) as Ht.
    destruct (record_arrival clock st) as [o st1]. simpl in Hok, Ht. subst o.
    unfold bind, gets, lift, modify. simpl. rewrite Ht.
    destruct (getitem body "delta") as [delta|e]; simpl; [|done].
    destruct (getitem delta "text") as [text|e]; simpl; [|done].
    by destruct text.
  - unfold bind, lift, modify. destruct (getitem body "stopReason"); simpl;
      by rewrite ?string_app_nil_r.
  - unfold bind, lift, modify, when, ret.
    destruct (contains "usage" body) as [[|]|e] eqn:Eu; simpl;
      destruct (contains "metrics" body) as [[|]|e'] eqn:Em; simpl;
      repeat (match goal with |- context [getitem ?b ?k] => destruct (getitem b k) end; simpl);
      rewrite ?string_app_nil_r; try done.
Qed.

Lemma for_each_text (clock : nat -> float) (vs : list StreamEvent) (st : Locals) (g : string) :
  generated_text st = VStr g ->
  generated_text (for_each vs (transition clock) st).2
  = VStr (g +:+ join (omap carried_text (take_while well_formed vs))).
Proof.
  revert st g. induction vs as [|v vs IH]; intros st g Hg.
  { simpl. by rewrite string_app_nil_r. }
  simpl. unfold bind. pose proof (transition_text clock v st g Hg) as Hv.
  destruct (transition clock v st) as [[[]|e] st']; destruct Hv as [-> Ht].
  - rewrite (IH st' _ Ht). simpl.
    destruct (carried_text v) as [s|]; simpl.
    + by rewrite string_app_assoc.
    + by rewrite string_app_nil_r.
  - simpl. by rewrite string_app_nil_r.
Qed.

Lemma on_exception_text (x : pyval) (e : exn) :
  invariant (fun st => generated_text st = x) (on_exception e).
Proof. unfold on_exception. eauto 20 with inv. Qed.

Lemma report_text (x : pyval) :
  invariant (fun st => generated_text st = x) report.
Proof. unfold report. eauto 40 with inv. Qed.

Lemma consume_stream_text (clock : nat -> float) (bedrock_client : Provider)
    (api_inputs : dict) (st : Locals) (g : string) :
  generated_text st = VStr g ->
  generated_text (consume_stream clock bedrock_client api_inputs st).2
  = VStr (g +:+ reply_text (converse_stream bedrock_client api_inputs)).
Proof.
  intros Hg. unfold consume_stream, reply_text.
  destruct (converse_stream bedrock_client api_inputs) as [e| |events ending];
    simpl; rewrite ?string_app_nil_r; try done.
  apply (bind_tail (fun st' => generated_text st' = _)).
  { intros _. destruct ending; eauto with inv. }
  rewrite (for_each_flat_map variants _ (transition clock)).
  - by apply for_each_text.
  - apply handle_event_variants.
Qed.

(** The text held when the [try] statement is left, on the streaming path. *)
Lemma engine_text (clock : nat -> float) (bedrock_client : Provider)
    (api_inputs : dict) (stream_model : pyval) :
  truthy stream_model = true ->
  generated_text (timing_engine clock bedrock_client api_inputs stream_model).2
  = VStr (reply_text (converse_stream bedrock_client api_inputs)).
Proof.
  intros Hs. unfold timing_engine.
  apply (try_except_tail (fun st => generated_text st = _)).
  { intros e. apply on_exception_text. }
  unfold try_body. rewrite Hs.
  apply (bind_tail (fun st => generated_text st = _)).
  { intros _. eauto 30 with inv. }
  by apply (consume_stream_text clock bedrock_client api_inputs _ "").
Qed.

(** C9: on the streaming path the text held when the [try] statement is
    left is the concatenation, in arrival order, of the texts of the content
    deltas observed before the stream ended or its handling failed; that text
    is what [llm_request] returns whenever it returns, and it does return it
    whenever the usage mapping holds the three token counts. *)
Theorem generated_text_is_concatenation (clock : nat -> float) (bedrock_client : Provider)
    (environ : gmap string string) (rc rc' : RequestConfig)
    (api_inputs : gmap string argval) (stream_model : pyval) :
  credentials_set environ = true ->
  request_builder rc = (Ok (api_inputs, stream_model), rc') ->
  truthy stream_model = true ->
  let arguments := call_arguments rc' api_inputs in
  let delivered := reply_text (converse_stream bedrock_client arguments) in
  let st := (timing_engine clock bedrock_client arguments stream_model).2 in
  generated_text st = VStr delivered
  /\ (forall m text rc'',
        (llm_request clock bedrock_client environ rc).1 = Ok (m, text, rc'') ->
        text = VStr delivered)
  /\ (forall tot out inp,
        getitem (usage st) "totalTokens" = Ok tot ->
        getitem (usage st) "outputTokens" = Ok out ->
        getitem (usage st) "inputTokens" = Ok inp ->
        exists m,
          llm_request clock bedrock_client environ rc = (Ok (m, VStr delivered, rc'), rc')).
Proof.
  intros Hc Hb Hs arguments delivered st.
  pose proof (engine_text clock bedrock_client arguments stream_model Hs) as Ht.
  fold st delivered in Ht.
  split; [done|]. split.
  - intros m text rc''. rewrite (llm_request_unfold _ _ _ _ _ _ _ Hc Hb).
    fold arguments st. cbv zeta.
    pose proof (report_text _ st Ht) as Hrep.
    destruct (report st) as [[[]|e] st']; [|done].
    simpl in Hrep |- *. intros [= <- <- <-]. by rewrite Hrep.
  - intros tot out inp Htot Hout Hinp.
    destruct (llm_request_returns clock bedrock_client environ rc rc' api_inputs
                stream_model st tot out inp Hc Hb eq_refl Htot Hout Hinp)
      as (m & Hm & _).
    exists m. by rewrite Hm, Ht.
Qed.

Lemma generated_text_is_concatenation_witness :
  exists m : BenchmarkMetrics,
    llm_request ticking_clock failing_provider environ_ok request_example
      = (Ok (m, VStr "Hello", request_example_after), request_example_after).
Proof.
  destruct (generated_text_is_concatenation ticking_clock failing_provider environ_ok
              request_example request_example_after example_api_inputs (VBool true))
    as (_ & _ & Hret); try reflexivity.
  apply (Hret (VInt 5) (VInt 2) (VInt 3)); reflexivity.
Defined.

(** ** Timing of content deltas *)

(** A delta that arrives while [ttft] is falsy sets it, and the first gap is
    measured from call start. *)
Lemma record_arrival_unset (clock : nat -> float) (st : Locals) :
  truthy (ttft st) = false ->
  record_arrival clock st =
  (Ok tt,
   let n := clock_reads st in
   let elapsed := (clock n - start_time st)%float in
   set_most_recent_received_token_time (clock (S n))
     (set_clock_reads (S (S n))
        (set_time_to_next_token (time_to_next_token st ++ [elapsed])
           (set_ttft (VFloat elapsed) st)))).
Proof.
  intros Ht. unfold record_arrival, bind, gets, monotonic, modify. simpl.
  by rewrite Ht.
Qed.

(** A delta that arrives while [ttft] is truthy leaves it alone, and the gap
    is measured from the previous arrival. *)
Lemma record_arrival_set (clock : nat -> float) (st : Locals) :
  truthy (ttft st) = true ->
  record_arrival clock st =
  (Ok tt,
   let n := clock_reads st in
   let gap := (clock n - most_recent_received_token_time st)%float in
   set_most_recent_received_token_time (clock (S n))
     (set_clock_reads (S (S n))
        (set_time_to_next_token (time_to_next_token st ++ [gap]) st))).
Proof.
  intros Ht. unfold record_arrival, bind, gets, monotonic, modify. simpl.
  by rewrite Ht.
Qed.

Lemma record_arrival_shape (clock : nat -> float) (st : Locals) :
  exists t : pyval,
    record_arrival clock st
    = (Ok tt,
       let since :=
         if truthy (ttft st) then most_recent_received_token_time st
         else start_time st in
       set_most_recent_received_token_time (clock (S (clock_reads st)))
         (set_clock_reads (S (S (clock_reads st)))
            (set_time_to_next_token
               (time_to_next_token st ++ [(clock (clock_reads st) - since)%float])
               (set_ttft t st)))).
Proof.
  destruct (truthy (ttft st)) eqn:Ht.
  - rewrite (record_arrival_set _ _ Ht).
    exists (ttft st). by destruct st.
  - rewrite (record_arrival_unset _ _ Ht). by eexists.
Qed.

Lemma record_arrival_frozen (clock : nat -> float) (x : pyval) :
  truthy x = true ->
  invariant (fun st => ttft st = x) (record_arrival clock).
Proof.
  intros Hx st Ht. rewrite record_arrival_set; [done|]. by rewrite Ht.
Qed.

(** Once [ttft] is truthy, no event changes it. *)
Lemma handle_event_frozen (clock : nat -> float) (event : dict) (x : pyval) :
  truthy x = true ->
  invariant (fun st => ttft st = x) (handle_event clock event).
Proof.
  intros Hx. pose proof (record_arrival_frozen clock x Hx).
  unfold handle_event, on_message_start, on_content_block_delta,
    on_message_stop, on_metadata.
  eauto 40 with inv.
Qed.

Lemma stream_frozen (clock : nat -> float) (events : list dict) (x : pyval) :
  truthy x = true ->
  invariant (fun st => ttft st = x) (for_each events (handle_event clock)).
Proof. intros Hx. apply invariant_for_each. intros ev. by apply handle_event_frozen. Qed.

(** An event that carries no content delta does not change [ttft]. *)
Lemma handle_event_no_delta (clock : nat -> float) (event : dict) (x : pyval) :
  event !! "contentBlockDelta" = None ->
  invariant (fun st => ttft st = x) (handle_event clock event).
Proof.
  intros Hd. unfold handle_event.
  rewrite (proj2 (has_key_false "contentBlockDelta" event) Hd).
  unfold on_message_start, on_message_stop, on_metadata, when at 2.
  eauto 40 with inv.
Qed.

(** ** What single events do *)

Lemma transition_delta (clock : nat -> float) (body : pyval) (st : Locals) (s g : string) :
  carried_text (ContentDelta body) = Some s ->
  generated_text st = VStr g ->
  transition clock (ContentDelta body) st
  = (Ok tt, set_generated_text (VStr (g +:+ s)) (record_arrival clock st).2).
Proof.
  intros Hc Hg. simpl. unfold bind at 1.
  pose proof (record_arrival_ok clock st) as Hok.
  pose proof (record_arrival_text clock (VStr g) st Hg) as Ht.
  destruct (record_arrival clock st) as [o st1]. simpl in Hok, Ht. subst o.
  unfold bind, gets, lift, modify. simpl in Hc |- *. rewrite Ht.
  destruct (getitem body "delta") as [delta|e]; [|done].
  destruct (getitem delta "text") as [[]|e]; try done.
  by injection Hc as ->.
Qed.



Lemma handle_metadata (clock : nat -> float) (u : pyval) (st : Locals) :
  handle_event clock (metadata_event u) st = (Ok tt, set_usage u st).
Proof. by rewrite handle_event_variants. Qed.

Lemma handle_content_delta (clock : nat -> float) (t g : string) (st : Locals) :
  generated_text st = VStr g ->
  handle_event clock (content_delta_event t) st
  = (Ok tt, set_generated_text (VStr (g +:+ t)) (record_arrival clock st).2).
Proof.
  intros Hg. rewrite handle_event_variants.
  change (variants (content_delta_event t))
    with [ContentDelta (VDict {["delta" := VDict {["text" := VStr t]}]})].
  cbn [for_each]. rewrite bind_ret_unit. by apply transition_delta.
Qed.

Lemma consume_stream_events (clock : nat -> float) (bedrock_client : Provider)
    (api_inputs : dict) (events : list dict) (ending : option exn) (st : Locals) :
  converse_stream bedrock_client api_inputs = Stream events ending ->
  consume_stream clock bedrock_client api_inputs st
  = match for_each events (handle_event clock) st with
    | (Ok _, st') =>
        match ending with
        | Some e => (Raise e, st')
        | None => (Ok tt, st')
        end
    | (Raise e, st') => (Raise e, st')
    end.
Proof.
  intros H. unfold consume_stream. rewrite H. unfold bind.
  destruct (for_each _ _ _) as [[[]|e] st']; [|done]. by destruct ending.
Qed.

(** What follows the loop inside the [try], and the [except] clause, leave
    the timing trace, the usage and the text as the loop left them. *)
Lemma engine_after_stream (clock : nat -> float) (bedrock_client : Provider)
    (api_inputs : dict) (stream_model : pyval) (events : list dict)
    (ending : option exn) (o : outcome unit) (st1 : Locals) :
  truthy stream_model = true ->
  converse_stream bedrock_client api_inputs = Stream events ending ->
  for_each events (handle_event clock) (initial_locals clock) = (o, st1) ->
  let st := (timing_engine clock bedrock_client api_inputs stream_model).2 in
  ttft st = ttft st1
  /\ time_to_next_token st = time_to_next_token st1
  /\ usage st = usage st1
  /\ generated_text st = generated_text st1.
Proof.
  intros Hs Hr Hev. cbv zeta. unfold timing_engine.
  set (I := fun st : Locals =>
              ttft st = ttft st1
              /\ time_to_next_token st = time_to_next_token st1
              /\ usage st = usage st1
              /\ generated_text st = generated_text st1).
  apply (try_except_tail I).
  { intros e. unfold on_exception, I. eauto 20 with inv. }
  unfold try_body. rewrite Hs.
  apply (bind_tail I).
  { intros _. unfold I. eauto 30 with inv. }
  rewrite (consume_stream_events _ _ _ _ _ _ Hr), Hev. unfold I.
  by destruct o as [[]|e], ending.
Qed.

(** ** Events that carry several recognised keys *)





(** ** Failures and the usage mapping *)

Lemma handle_event_usage (clock : nat -> float) (event : dict) (x : pyval) :
  event !! "metadata" = None ->
  invariant (fun st => usage st = x) (handle_event clock event).
Proof.
  intros Hd. unfold handle_event.
  rewrite (proj2 (has_key_false "metadata" event) Hd).
  unfold on_message_start, on_content_block_delta, on_message_stop,
    record_arrival, when at 4.
  eauto 40 with inv.
Qed.

Lemma try_tail_usage (clock : nat -> float) (x : pyval) (first : M unit) (st : Locals) :
  usage (first st).2 = x ->
  usage (try_except
           (first ;;
            u <- gets usage ;;
            received <- lift (getitem u "outputTokens") ;;
            modify (set_tokens_received received) ;;
            now <- monotonic clock ;;
            s <- gets start_time ;;
            modify (set_total_request_time (VFloat (now - s))) ;;
            throughput <- lift (truediv received (now - s)) ;;
            modify (set_output_throughput throughput))%py
           on_exception st).2 = x.
Proof.
  intros H.
  apply (try_except_tail (fun st' => usage st' = x)).
  { intros e. unfold on_exception. eauto 20 with inv. }
  apply (bind_tail (fun st' => usage st' = x)); [|done].
  intros _. eauto 30 with inv.
Qed.

(** A stream none of whose events carries metadata leaves [usage] empty. *)
Lemma stream_without_metadata (clock : nat -> float) (bedrock_client : Provider)
    (api_inputs : dict) (stream_model : pyval) (events : list dict) (ending : option exn) :
  truthy stream_model = true ->
  converse_stream bedrock_client api_inputs = Stream events ending ->
  Forall (fun event : dict => event !! "metadata" = None) events ->
  usage (timing_engine clock bedrock_client api_inputs stream_model).2 = VDict ∅.
Proof.
  intros Hs Hr Hev. unfold timing_engine, try_body. rewrite Hs.
  apply try_tail_usage. unfold consume_stream. rewrite Hr.
  apply (bind_tail (fun st' => usage st' = VDict ∅)).
  { intros _. destruct ending; eauto with inv. }
  assert (Hinv : invariant (fun st' => usage st' = VDict ∅)
                   (for_each events (handle_event clock))); [|by apply Hinv].
  clear Hr. induction Hev as [|ev evs Hd _ IH]; [apply invariant_ret|].
  simpl. apply invariant_bind; [by apply handle_event_usage|by intros _].
Qed.

(** A remote call that raises leaves [usage] empty as well. *)
Lemma failed_call_without_usage (clock : nat -> float) (bedrock_client : Provider)
    (api_inputs : dict) (stream_model : pyval) (e : exn) :
  (if truthy stream_model
   then converse_stream bedrock_client api_inputs = StreamRaise e
   else converse bedrock_client api_inputs = Raise e) ->
  usage (timing_engine clock bedrock_client api_inputs stream_model).2 = VDict ∅.
Proof.
  intros H. unfold timing_engine, try_body. apply try_tail_usage.
  destruct (truthy stream_model).
  - unfold consume_stream. by rewrite H.
  - unfold read_response, bind at 1. by rewrite H.
Qed.

(** Whenever the [try] statement is left with [usage] still empty, line 191
    raises [KeyError] and nothing is returned. *)
Lemma empty_usage_raises (clock : nat -> float) (bedrock_client : Provider)
    (environ : gmap string string) (rc rc' : RequestConfig)
    (api_inputs : gmap string argval) (stream_model : pyval) :
  credentials_set environ = true ->
  request_builder rc = (Ok (api_inputs, stream_model), rc') ->
  usage (timing_engine clock bedrock_client
           (call_arguments rc' api_inputs) stream_model).2 = VDict ∅ ->
  (llm_request clock bedrock_client environ rc).1 = Raise (KeyError (VStr "totalTokens")).
Proof.
  intros Hc Hb Hu. apply (llm_request_raises _ _ _ _ _ _ _ _ Hc Hb).
  by rewrite Hu.
Qed.

Lemma environ_ok_set : credentials_set environ_ok = true.
Proof. repeat split; reflexivity. Qed.

Lemma request_example_built :
  request_builder request_example
  = (Ok (example_api_inputs, VBool true), request_example_after).
Proof. repeat split; reflexivity. Qed.

(** C1: a stream that delivers a message start and two content deltas and
    then ends, with neither metadata nor message stop, makes [llm_request]
    raise: the [KeyError] of line 177 is caught, the one of line 191 is not.
    The partial text ["Hello"] held by the locals is not returned.  A remote
    call that raises at once ends the same way. *)
Theorem interrupted_stream_raises (clock : nat -> float) :
  (llm_request clock interrupted_provider environ_ok request_example).1
    = Raise (KeyError (VStr "totalTokens"))
  /\ generated_text
       (timing_engine clock interrupted_provider
          (call_arguments request_example_after example_api_inputs) (VBool true)).2
    = VStr "Hello"
  /\ (llm_request clock unreachable_provider environ_ok request_example).1
    = Raise (KeyError (VStr "totalTokens")).
Proof.
  pose proof request_example_built as Hb.
  split; [|split].
  - apply (empty_usage_raises _ _ _ _ _ _ _ environ_ok_set Hb).
    eapply stream_without_metadata; [done|done|].
    by repeat constructor.
  - by rewrite engine_text.
  - apply (empty_usage_raises _ _ _ _ _ _ _ environ_ok_set Hb).
    by apply (failed_call_without_usage _ _ _ _ (ProviderError "unreachable")).
Qed.

(** ** The error fields *)

Lemma error_fields_modify (f : Locals -> Locals) :
  (forall st, error_msg (f st) = error_msg st) ->
  (forall st, error_response_code (f st) = error_response_code st) ->
  (forall st, benchmark_metrics (f st) = benchmark_metrics st) ->
  invariant error_fields_blank (modify f).
Proof.
  intros H1 H2 H3 st (Hm & Hc & Hbm & Hbc). unfold error_fields_blank, modify. simpl.
  by rewrite H1, H2, H3.
Qed.

#[local] Hint Extern 1 (invariant error_fields_blank (modify _)) =>
  apply error_fields_modify; intros ?; reflexivity : inv.

Lemma error_fields_monotonic (clock : nat -> float) :
  invariant error_fields_blank (monotonic clock).
Proof. by intros st H. Qed.

#[local] Hint Resolve error_fields_monotonic : inv.

Lemma error_fields_set_metric (k : metric_key) (v : pyval) :
  k <> ERROR_MSG -> k <> ERROR_CODE ->
  invariant error_fields_blank (set_metric k v).
Proof.
  intros H1 H2 st (Hm & Hc & Hbm & Hbc). unfold error_fields_blank, set_metric, modify.
  simpl. by rewrite !lookup_insert_ne.
Qed.

(** The [except] clause copies the two error variables, which nothing has
    assigned since lines 123-124, into the record. *)
Lemma error_fields_on_exception (e : exn) :
  invariant error_fields_blank (on_exception e).
Proof.
  intros st (Hm & Hc & Hbm & Hbc).
  unfold on_exception, error_fields_blank, bind, gets, set_metric, modify. simpl.
  rewrite Hm, Hc. by simplify_map_eq.
Qed.

Lemma error_fields_record_arrival (clock : nat -> float) :
  invariant error_fields_blank (record_arrival clock).
Proof.
  intros st H. destruct (record_arrival_shape clock st) as (t & ->).
  exact H.
Qed.

Lemma error_fields_handle_event (clock : nat -> float) (event : dict) :
  invariant error_fields_blank (handle_event clock event).
Proof.
  pose proof (error_fields_record_arrival clock).
  unfold handle_event, on_message_start, on_content_block_delta,
    on_message_stop, on_metadata.
  eauto 30 with inv.
Qed.

Lemma error_fields_try_body (clock : nat -> float) (bedrock_client : Provider)
    (api_inputs : dict) (stream_model : pyval) :
  invariant error_fields_blank (try_body clock bedrock_client api_inputs stream_model).
Proof.
  pose proof (error_fields_handle_event clock).
  unfold try_body. apply invariant_bind; [apply invariant_if|intros _].
  - unfold consume_stream. eauto 10 with inv.
  - unfold read_response. eauto 40 with inv.
  - eauto 20 with inv.
Qed.

Lemma error_fields_report : invariant error_fields_blank report.
Proof.
  unfold report.
  repeat (apply invariant_bind; [|intros ?]);
    first [ apply invariant_gets | apply invariant_lift
          | by apply error_fields_set_metric ].
Qed.

(** Whatever is caught, the error entries of a returned record are the
    initial [""] and [None]. *)
Lemma error_fields_never_populated (clock : nat -> float) (bedrock_client : Provider)
    (environ : gmap string string) (rc rc' : RequestConfig)
    (m : BenchmarkMetrics) (text : pyval) :
  (llm_request clock bedrock_client environ rc).1 = Ok (m, text, rc') ->
  m !! ERROR_MSG = Some (VStr "") /\ m !! ERROR_CODE = Some VNone.
Proof.
  unfold llm_request.
  destruct (negb (env_set environ "AWS_ACCESS_KEY_ID")); [done|].
  destruct (negb (env_set environ "AWS_SECRET_ACCESS_KEY")); [done|].
  destruct (negb (env_set environ "AWS_REGION_NAME")); [done|].
  destruct (request_builder rc) as [[[args sm]|e] rc1]; [|done].
  assert (H : error_fields_blank
                (timing_engine clock bedrock_client (call_arguments rc1 args) sm).2).
  { apply invariant_try_except.
    - apply error_fields_try_body.
    - apply error_fields_on_exception.
    - unfold error_fields_blank. simpl. by simplify_map_eq. }
  destruct (timing_engine _ _ _ _) as [o st]. simpl in H.
  apply error_fields_report in H.
  destruct (report st) as [[[]|e] st']; [|done].
  simpl. intros [= <- <- <-]. by destruct H as (_ & _ & ? & ?).
Qed.

Lemma failing_provider_caught (clock : nat -> float) (api_inputs : dict) :
  exists st : Locals,
    try_body clock failing_provider api_inputs (VBool true) (initial_locals clock)
    = (Raise (ProviderError "connection reset"), st)
    /\ generated_text st = VStr "Hello"
    /\ usage st = usage_example
    /\ output_throughput st = VInt 0.
Proof.
  unfold try_body, bind at 1. simpl truthy. cbv iota.
  rewrite (consume_stream_events clock failing_provider api_inputs _ _ _ eq_refl).
  erewrite for_each_cons_ok; [|by apply (handle_content_delta _ _ "")].
  destruct (record_arrival_shape clock (initial_locals clock)) as (t1 & ->).
  erewrite for_each_cons_ok; [|by apply handle_metadata].
  erewrite for_each_cons_ok; [|by apply (handle_content_delta _ _ "Hel")].
  match goal with
  | |- context [record_arrival clock ?st] =>
      destruct (record_arrival_shape clock st) as (t2 & ->)
  end.
  by eexists.
Qed.

(** The record returned when the stream of [failing_provider] breaks. *)
Lemma failing_provider_returns (clock : nat -> float) :
  exists m : BenchmarkMetrics,
    llm_request clock failing_provider environ_ok request_example
      = (Ok (m, VStr "Hello", request_example_after), request_example_after)
    /\ m !! REQ_OUTPUT_THROUGHPUT = Some (VInt 0)
    /\ m !! NUM_TOTAL_TOKENS = Some (VInt 5)
    /\ m !! NUM_OUTPUT_TOKENS = Some (VInt 2)
    /\ m !! NUM_INPUT_TOKENS = Some (VInt 3).
Proof.
  pose proof request_example_built as Hb.
  set (args := call_arguments request_example_after example_api_inputs).
  destruct (failing_provider_caught clock args) as (st & Hst & Hg & Hu & Ht).
  destruct (llm_request_returns clock failing_provider environ_ok _ _ _ _
              (on_exception (ProviderError "connection reset") st).2
              (VInt 5) (VInt 2) (VInt 3) environ_ok_set Hb)
    as (m & Hm & _ & _ & _ & Hth & Htot & Hout & Hin & _).
  - fold args. unfold timing_engine, try_except. by rewrite Hst.
  - simpl. by rewrite Hu.
  - simpl. by rewrite Hu.
  - simpl. by rewrite Hu.
  - exists m. rewrite Hm. simpl. rewrite Hg.
    simpl in Hth. rewrite Ht in Hth. repeat split; assumption.
Qed.

(** C2: a stream breaks with [ProviderError "connection reset"] after it has
    delivered its usage.  The failure is caught and the method returns, but
    the error entries of the record are the initial [""] and [None], not the
    description of the failure; the token counts are those of the usage
    mapping and the throughput is the initial [0]. *)
Theorem caught_failure_not_reported (clock : nat -> float) :
  (forall api_inputs : dict,
     (try_body clock failing_provider api_inputs (VBool true) (initial_locals clock)).1
     = Raise (ProviderError "connection reset"))
  /\ exists (m : BenchmarkMetrics) (rc' : RequestConfig),
       (llm_request clock failing_provider environ_ok request_example).1
         = Ok (m, VStr "Hello", rc')
       /\ m !! ERROR_MSG = Some (VStr "")
       /\ m !! ERROR_CODE = Some VNone
       /\ m !! REQ_OUTPUT_THROUGHPUT = Some (VInt 0)
       /\ m !! NUM_TOTAL_TOKENS = Some (VInt 5)
       /\ m !! NUM_OUTPUT_TOKENS = Some (VInt 2)
       /\ m !! NUM_INPUT_TOKENS = Some (VInt 3).
Proof.
  split.
  - intros api_inputs.
    destruct (failing_provider_caught clock api_inputs) as (st & -> & _). done.
  - destruct (failing_provider_returns clock) as (m & Hm & Hth & Htot & Hout & Hin).
    exists m, request_example_after. rewrite Hm.
    destruct (error_fields_never_populated clock failing_provider environ_ok
                request_example request_example_after m (VStr "Hello")) as [He Hc].
    { by rewrite Hm. }
    repeat split; assumption.
Qed.

(** ** The time to first token *)

Lemma truthy_float (q : float) : PrimFloat.eqb q 0%float = false -> truthy (VFloat q) = true.
Proof. intros H. simpl. by rewrite H. Qed.

Lemma falsy_float (q : float) : PrimFloat.eqb q 0%float = true -> truthy (VFloat q) = false.
Proof. intros H. simpl. by rewrite H. Qed.

(** When the first delta arrives after a non-zero elapsed time, [ttft] is
    that elapsed time, and no later event changes it. *)
Lemma ttft_frozen_when_nonzero (clock : nat -> float) (t g : string) (st : Locals)
    (events : list dict) :
  generated_text st = VStr g ->
  truthy (ttft st) = false ->
  let elapsed := (clock (clock_reads st) - start_time st)%float in
  PrimFloat.eqb elapsed 0%float = false ->
  let st1 := (handle_event clock (content_delta_event t) st).2 in
  ttft st1 = VFloat elapsed
  /\ ttft (for_each events (handle_event clock) st1).2 = VFloat elapsed.
Proof.
  intros Hg Ht elapsed Hnz st1.
  assert (H1 : ttft st1 = VFloat elapsed).
  { unfold st1. rewrite (handle_content_delta clock t g st Hg).
    by rewrite (record_arrival_unset clock st Ht). }
  split; [done|].
  by apply (stream_frozen clock events (VFloat elapsed) (truthy_float _ Hnz)).
Qed.

(** The loop on two content deltas, the first of which is measured at zero
    elapsed time, and the metadata. *)
Lemma zero_arrival_loop (clock : nat -> float) (u : pyval) :
  PrimFloat.eqb (clock 2%nat - clock 0%nat) 0%float = true ->
  let st0 := initial_locals clock in
  let st1 := (handle_event clock (content_delta_event "a") st0).2 in
  let st2 := (handle_event clock (content_delta_event "b") st1).2 in
  ttft st1 = VFloat (clock 2%nat - clock 0%nat)
  /\ ttft st2 = VFloat (clock 4%nat - clock 0%nat)
  /\ time_to_next_token st2
     = [(clock 2%nat - clock 0%nat)%float; (clock 4%nat - clock 0%nat)%float]
  /\ for_each [content_delta_event "a"; content_delta_event "b"; metadata_event u]
       (handle_event clock) st0 = (Ok tt, set_usage u st2).
Proof.
  intros Hz st0 st1 st2.
  assert (E1 : handle_event clock (content_delta_event "a") st0
               = (Ok tt, set_generated_text (VStr "a") (record_arrival clock st0).2)).
  { by rewrite (handle_content_delta clock "a" "" st0). }
  assert (H1 : st1 = set_generated_text (VStr "a") (record_arrival clock st0).2).
  { unfold st1. by rewrite E1. }
  rewrite <- H1 in E1.
  rewrite (record_arrival_unset clock st0 eq_refl) in H1.
  assert (Ht1 : ttft st1 = VFloat (clock 2%nat - clock 0%nat)).
  { by rewrite H1. }
  assert (E2 : handle_event clock (content_delta_event "b") st1
               = (Ok tt, set_generated_text (VStr "ab") (record_arrival clock st1).2)).
  { by rewrite (handle_content_delta clock "b" "a" st1); [|by rewrite H1]. }
  assert (H2 : st2 = set_generated_text (VStr "ab") (record_arrival clock st1).2).
  { unfold st2. by rewrite E2. }
  rewrite <- H2 in E2.
  rewrite (record_arrival_unset clock st1) in H2
    by (rewrite Ht1; by apply falsy_float).
  split; [done|]. split; [|split].
  - rewrite H2. cbn [ttft set_generated_text set_most_recent_received_token_time
                       set_clock_reads set_time_to_next_token set_ttft].
    by rewrite H1.
  - rewrite H2. cbn [time_to_next_token set_generated_text
                       set_most_recent_received_token_time set_clock_reads
                       set_time_to_next_token set_ttft].
    by rewrite H1.
  - rewrite (for_each_cons_ok _ _ _ _ _ E1), (for_each_cons_ok _ _ _ _ _ E2).
    by rewrite (for_each_cons_ok _ _ _ _ _ (handle_metadata clock u st2)).
Qed.

(** C6: when the first content delta is measured at zero elapsed time it
    sets [ttft] to a zero, which [not ttft] still finds falsy at the second
    content delta: line 142 overwrites [ttft] with the elapsed time of the
    second delta, and that is what the returned record reports as the time to
    first token.  With readings [5.0, 5.0, 5.0, 5.0, 5.5, 5.5] the first delta
    sets [0.0] and the second [0.5]. *)
Theorem ttft_overwritten_after_zero_arrival (clock : nat -> float) :
  PrimFloat.eqb (clock 2%nat - clock 0%nat) 0%float = true ->
  let st0 := initial_locals clock in
  let st1 := (handle_event clock (content_delta_event "a") st0).2 in
  let st2 := (handle_event clock (content_delta_event "b") st1).2 in
  let provider :=
    stream_provider
      [content_delta_event "a"; content_delta_event "b"; metadata_event usage_example]
      None in
  ttft st0 = VInt 0
  /\ ttft st1 = VFloat (clock 2%nat - clock 0%nat)
  /\ ttft st2 = VFloat (clock 4%nat - clock 0%nat)
  /\ time_to_next_token st2
     = [(clock 2%nat - clock 0%nat)%float; (clock 4%nat - clock 0%nat)%float]
  /\ exists m : BenchmarkMetrics,
       llm_request clock provider environ_ok request_example
         = (Ok (m, VStr "ab", request_example_after), request_example_after)
       /\ m !! TTFT = Some (VFloat (clock 4%nat - clock 0%nat)).
Proof.
  intros Hz st0 st1 st2 provider.
  destruct (zero_arrival_loop clock usage_example Hz) as (H1 & H2 & Hgaps & Hloop).
  fold st0 st1 st2 in H1, H2, Hgaps, Hloop.
  repeat (split; [done|]).
  destruct (engine_after_stream clock provider
              (call_arguments request_example_after example_api_inputs)
              (VBool true) _ None _ _ eq_refl eq_refl Hloop)
    as (Et & _ & Eu & Ex).
  destruct (llm_request_returns clock provider environ_ok request_example
              request_example_after example_api_inputs (VBool true) _
              (VInt 5) (VInt 2) (VInt 3) environ_ok_set request_example_built eq_refl)
    as (m & Hm & _ & Hfirst & _); try (by rewrite Eu).
  exists m. rewrite Hm, Hfirst, Et, Ex. split; [|by rewrite <- H2].
  cbn [generated_text set_usage].
  replace (generated_text st2) with (VStr "ab"); [done|].
  unfold st2. by rewrite (handle_content_delta clock "b" "a" st1);
    [|unfold st1; by rewrite (handle_content_delta clock "a" "" st0)].
Qed.

Lemma ttft_overwritten_after_zero_arrival_witness :
  ttft (handle_event (simulated_clock 5 [0%float; half] 1)
          (content_delta_event "a")
          (initial_locals (simulated_clock 5 [0%float; half] 1))).2
  = VFloat 0
  /\ exists m : BenchmarkMetrics,
       llm_request (simulated_clock 5 [0%float; half] 1)
         (stream_provider
            [content_delta_event "a"; content_delta_event "b";
             metadata_event usage_example] None)
         environ_ok request_example
       = (Ok (m, VStr "ab", request_example_after), request_example_after)
       /\ m !! TTFT = Some (VFloat half).
Proof.
  destruct (ttft_overwritten_after_zero_arrival (simulated_clock 5 [0%float; half] 1)
              eq_refl)
    as (_ & H1 & _ & _ & m & Hm & Ht).
  split; [exact H1|].
  exists m. split; [exact Hm | exact Ht].
Defined.

(** ** Timing of a stream *)





(** ** The throughput division *)

(** [10**400 / 2.0] raises [OverflowError]; the largest integer that is
    converted is the one just below [2**1024 - 2**970], and it becomes the
    largest finite float; a zero divisor raises whatever its sign. *)
Example truediv_examples :
  truediv (VInt (10 ^ 400)) 2 = Raise OverflowError
  /\ int_to_float (2 ^ 1024 - 2 ^ 970) = Raise OverflowError
  /\ int_to_float (2 ^ 1024 - 2 ^ 970 - 1) = Ok 0x1.fffffffffffffp+1023%float
  /\ truediv (VInt 50) (-0)%float = Raise ZeroDivisionError
  /\ truediv (VInt 1) 3 = Ok (VFloat 0.3333333333333333)
  /\ truediv (VStr "50") 2 = Raise TypeError.
Proof. repeat split; vm_compute; reflexivity. Qed.

(** ** The blocking call *)

Lemma read_response_ok (bedrock_client : Provider) (api_inputs response : dict)
    (text u : pyval) (st : Locals) :
  converse bedrock_client api_inputs = Ok response ->
  blocking_response response text u ->
  exists st' : Locals,
    read_response bedrock_client api_inputs st = (Ok tt, st')
    /\ time_to_next_token st' = []
    /\ ttft st' = VInt 0
    /\ generated_text st' = text
    /\ usage st' = u
    /\ start_time st' = start_time st
    /\ clock_reads st' = clock_reads st
    /\ output_throughput st' = output_throughput st
    /\ benchmark_metrics st' = benchmark_metrics st.
Proof.
  intros Hr (output & message & content & block & Ho & Hm & Hrole & Hc & Hb & Ht
             & [stop Hstop] & Hu & [met Hmet]).
  destruct (getitem message "role") as [role|] eqn:Er; [|done].
  unfold read_response, bind, lift, modify, ret. rewrite Hr. simpl.
  rewrite Ho, Hm, Er, Hc, Hb, Ht, Hstop, Hu, Hmet. by eexists.
Qed.

(** C5: a blocking call that succeeds with [outputTokens = 50] after an
    elapsed time [t] returns the throughput [50 / t], has no inter-arrival
    gap (the reported inter-token latency is the empty sum) and a time to
    first token of zero. *)
Theorem blocking_call_throughput (clock : nat -> float) (bedrock_client : Provider)
    (environ : gmap string string) (rc rc' : RequestConfig)
    (api_inputs : gmap string argval) (stream_model : pyval)
    (response : dict) (text u tot inp : pyval) :
  credentials_set environ = true ->
  request_builder rc = (Ok (api_inputs, stream_model), rc') ->
  truthy stream_model = false ->
  converse bedrock_client (call_arguments rc' api_inputs) = Ok response ->
  blocking_response response text u ->
  getitem u "outputTokens" = Ok (VInt 50) ->
  getitem u "totalTokens" = Ok tot ->
  getitem u "inputTokens" = Ok inp ->
  let t := (clock 2%nat - clock 0%nat)%float in
  PrimFloat.eqb t 0%float = false ->
  let st := (timing_engine clock bedrock_client
               (call_arguments rc' api_inputs) stream_model).2 in
  time_to_next_token st = []
  /\ exists m : BenchmarkMetrics,
       llm_request clock bedrock_client environ rc = (Ok (m, text, rc'), rc')
       /\ m !! REQ_OUTPUT_THROUGHPUT = Some (VFloat (50 / t))
       /\ m !! INTER_TOKEN_LAT = Some (VInt 0)
       /\ m !! TTFT = Some (VInt 0)
       /\ m !! E2E_LAT = Some (VFloat t)
       /\ m !! NUM_OUTPUT_TOKENS = Some (VInt 50).
Proof.
  intros Hc Hb Hs Hr Hwf Hout Htot Hinp t Hnz st.
  destruct (read_response_ok bedrock_client _ response text u (initial_locals clock)
              Hr Hwf)
    as (st1 & Hread & Hgaps & Httft & Htext & Hu & Hstart & Hreads & Hth & Hbm).
  assert (Hdiv : truediv (VInt 50) t = Ok (VFloat (50 / t))).
  { unfold truediv. change (int_to_float 50) with (Ok 50%float). by rewrite Hnz. }
  assert (Hst : st = set_output_throughput (VFloat (50 / t))
                       (set_total_request_time (VFloat t)
                          (set_clock_reads 3 (set_tokens_received (VInt 50) st1)))).
  { unfold st, timing_engine, try_except, try_body. rewrite Hs.
    unfold bind at 1. rewrite Hread.
    unfold bind, gets, lift, modify, monotonic.
    simpl. rewrite Hu, Hout, Hreads, Hstart.
    change (clock (clock_reads (initial_locals clock))
            - start_time (initial_locals clock))%float with t.
    by rewrite Hdiv. }
  split; [by rewrite Hst|].
  destruct (llm_request_returns clock bedrock_client environ rc rc' api_inputs
              stream_model st tot (VInt 50) inp Hc Hb eq_refl)
    as (m & Hm & Hlat & Hfirst & Htotal & Hthr & _ & Ho & _);
    try (rewrite Hst; simpl; by rewrite Hu).
  exists m. rewrite Hm, Hlat, Hfirst, Htotal, Hthr, Ho, Hst. simpl.
  rewrite Htext, Hgaps, Httft. repeat split.
Qed.

Lemma blocking_call_throughput_witness :
  exists m : BenchmarkMetrics,
    llm_request ticking_clock blocking_provider environ_ok blocking_request
      = (Ok (m, VStr "Hello", blocking_request), blocking_request)
    /\ m !! REQ_OUTPUT_THROUGHPUT = Some (VFloat 25).
Proof.
  destruct (blocking_call_throughput ticking_clock blocking_provider environ_ok
              blocking_request blocking_request blocking_api_inputs (VBool false)
              response_example (VStr "Hello") response_usage (VInt 60) (VInt 10))
    as (_ & m & Hm & Hthr & _); try reflexivity.
  - exists (VDict {["message" :=
                VDict (<["role" := VStr "assistant"]>
                         {["content" := VList [VDict {["text" := VStr "Hello"]}]]})]}),
      (VDict (<["role" := VStr "assistant"]>
                         {["content" := VList [VDict {["text" := VStr "Hello"]}]]})),
      (VList [VDict {["text" := VStr "Hello"]}]),
      (VDict {["text" := VStr "Hello"]}).
    repeat split; try reflexivity; by eexists.
  - exists m. split; [exact Hm | exact Hthr].
Defined.

(** * Further properties *)

(** ** Credentials *)

(** X1: when one of the three environment variables is unset or empty,
    [llm_request] raises [ValueError] naming the first such variable, in the
    order access key, secret key, region, and leaves [request_config] as it
    was: nothing is built and no call is made. *)
Theorem missing_credentials_fail_fast (clock : nat -> float) (bedrock_client : Provider)
    (environ : gmap string string) (rc : RequestConfig) :
  credentials_set environ = false ->
  let missing :=
    if negb (env_set environ "AWS_ACCESS_KEY_ID") then "AWS_ACCESS_KEY_ID"
    else if negb (env_set environ "AWS_SECRET_ACCESS_KEY") then "AWS_SECRET_ACCESS_KEY"
    else "AWS_REGION_NAME" in
  llm_request clock bedrock_client environ rc
  = (Raise (ValueError (missing +:+ " must be set.")), rc).
Proof.
  unfold credentials_set, llm_request. intros H.
  destruct (env_set environ "AWS_ACCESS_KEY_ID"); [|done].
  destruct (env_set environ "AWS_SECRET_ACCESS_KEY"); [|done].
  by destruct (env_set environ "AWS_REGION_NAME").
Qed.

Lemma missing_credentials_fail_fast_witness :
  llm_request ticking_clock unreachable_provider
    {["AWS_ACCESS_KEY_ID" := "key"; "AWS_SECRET_ACCESS_KEY" := ""]} request_example
  = (Raise (ValueError "AWS_SECRET_ACCESS_KEY must be set."), request_example).
Proof.
  exact (missing_credentials_fail_fast ticking_clock unreachable_provider
           {["AWS_ACCESS_KEY_ID" := "key"; "AWS_SECRET_ACCESS_KEY" := ""]}
           request_example eq_refl).
Defined.

(** ** What the builder puts into the call arguments *)

Lemma add_request_body_lookup (body : dict) (a a' : gmap string argval) (k : string) :
  add_request_body body a = Ok a' ->
  truthy (default (VStr "") (body !! "toolConfig")) = false
  /\ a' !! k =
     if decide (k = "additionalModelResponseFieldPaths")
     then (if truthy (default (VStr "") (body !! k))
           then Some (Arg (default (VStr "") (body !! k))) else a !! k)
     else if decide (k = "additionalModelRequestFields")
     then (if truthy (default (VStr "") (body !! k))
           then Some (Arg (default (VStr "") (body !! k))) else a !! k)
     else if decide (k = "system")
     then (if truthy (default (VStr "") (body !! k))
           then Some (Arg (VList [VDict {["text" := default (VStr "") (body !! k)]}]))
           else a !! k)
     else a !! k.
Proof.
  unfold add_request_body. intros H.
  destruct (truthy (default (VStr "") (body !! "toolConfig"))); [done|]. split; [done|].
  injection H as <-.
  destruct (truthy (default (VStr "") (body !! "system"))) eqn:E1; simpl;
    destruct (truthy (default (VStr "") (body !! "additionalModelRequestFields"))) eqn:E2;
    destruct (truthy (default (VStr "") (body !! "additionalModelResponseFieldPaths"))) eqn:E3;
    repeat case_decide; subst; simplify_map_eq; rewrite ?E1, ?E2, ?E3; done.
Qed.

Lemma builder_lookup (rc rc' : RequestConfig) (api_inputs : gmap string argval)
    (stream_model : pyval) (k : string) :
  request_builder rc = (Ok (api_inputs, stream_model), rc') ->
  truthy (body_field rc "toolConfig") = false
  /\ api_inputs !! k =
     if decide (k = "additionalModelResponseFieldPaths")
     then (if truthy (body_field rc k) then Some (Arg (body_field rc k)) else None)
     else if decide (k = "additionalModelRequestFields")
     then (if truthy (body_field rc k) then Some (Arg (body_field rc k)) else None)
     else if decide (k = "system")
     then (if truthy (body_field rc k)
           then Some (Arg (VList [VDict {["text" := body_field rc k]}])) else None)
     else if decide (k = "inferenceConfig")
     then (if opt_truthy (normalized <$> sampling_params rc)
           then Some SamplingParamsRef else None)
     else if decide (k = "messages")
     then Some (Arg (VList [VDict (<["role" := VStr "user"]>
                                     {["content" :=
                                         VList [VDict {["text" := VStr (prompt rc).1]}]]})]))
     else if decide (k = "modelId") then Some (Arg (VStr (model rc)))
     else None.
Proof.
  unfold request_builder, body_field. destruct (prompt rc) as [p n].
  rewrite <- extract_rename.
  destruct (extract_stream _) as [sm ic]. simpl.
  set (base := if opt_truthy ic then _ else _).
  assert (Hbase : base !! k =
            if decide (k = "inferenceConfig")
            then (if opt_truthy ic then Some SamplingParamsRef else None)
            else if decide (k = "messages")
            then Some (Arg (VList [VDict (<["role" := VStr "user"]>
                                     {["content" := VList [VDict {["text" := VStr p]}]]})]))
            else if decide (k = "modelId") then Some (Arg (VStr (model rc)))
            else None).
  { unfold base. destruct (opt_truthy ic); repeat case_decide; subst; by simplify_map_eq. }
  destruct (additional_request_body rc) as [body|]; simpl.
  - destruct (add_request_body body base) as [a'|e] eqn:E; [|done].
    intros H. injection H as H1 H2 H3. subst api_inputs.
    destruct (add_request_body_lookup body base a' k E) as [Ht ->].
    split; [exact Ht|]. rewrite Hbase.
    repeat case_decide; simplify_eq; try done;
      by destruct (truthy _).
  - intros H. injection H as H1 H2 H3. subst api_inputs.
    split; [reflexivity|]. rewrite Hbase. simpl.
    repeat case_decide; by simplify_eq.
Qed.

Lemma request_with_system_built :
  request_builder request_with_system
  = (Ok (system_api_inputs, VBool true), request_with_system_after).
Proof. reflexivity. Qed.

(** X2: whenever the builder succeeds, the call arguments hold the model
    identifier under [modelId] and, under [messages], exactly one message: a
    [user] turn whose content is one text block with the prompt text. *)
Theorem builder_required_arguments (rc rc' : RequestConfig)
    (api_inputs : gmap string argval) (stream_model : pyval) :
  request_builder rc = (Ok (api_inputs, stream_model), rc') ->
  call_arguments rc' api_inputs !! "modelId" = Some (VStr (model rc))
  /\ call_arguments rc' api_inputs !! "messages"
     = Some (VList [VDict (<["role" := VStr "user"]>
                             {["content" := VList [VDict {["text" := VStr (prompt rc).1]}]]})]).
Proof.
  intros Hb. unfold call_arguments. rewrite !lookup_omap.
  destruct (builder_lookup rc rc' api_inputs stream_model "modelId" Hb) as [_ ->].
  destruct (builder_lookup rc rc' api_inputs stream_model "messages" Hb) as [_ ->].
  done.
Qed.

Lemma builder_required_arguments_witness :
  call_arguments request_with_system_after system_api_inputs !! "modelId"
  = Some (VStr "model-a")
  /\ call_arguments request_with_system_after system_api_inputs !! "messages"
     = Some (VList [VDict (<["role" := VStr "user"]>
                             {["content" := VList [VDict {["text" := VStr "Say hello"]}]]})]).
Proof.
  exact (builder_required_arguments request_with_system request_with_system_after
           system_api_inputs (VBool true) request_with_system_built).
Defined.

(** X3: whenever the builder succeeds, each of [system],
    [additionalModelRequestFields] and [additionalModelResponseFieldPaths] is
    among the call arguments exactly when [additional_request_body] holds a
    truthy value for it; the two latter are passed as they are, the system
    prompt wrapped as a one-element list [[{"text": system}]].  An absent or
    empty value leaves the key out. *)
Theorem builder_optional_arguments (rc rc' : RequestConfig)
    (api_inputs : gmap string argval) (stream_model : pyval) :
  request_builder rc = (Ok (api_inputs, stream_model), rc') ->
  let passed (k : string) := call_arguments rc' api_inputs !! k in
  passed "system"
  = (if truthy (body_field rc "system")
     then Some (VList [VDict {["text" := body_field rc "system"]}]) else None)
  /\ passed "additionalModelRequestFields"
     = (if truthy (body_field rc "additionalModelRequestFields")
        then Some (body_field rc "additionalModelRequestFields") else None)
  /\ passed "additionalModelResponseFieldPaths"
     = (if truthy (body_field rc "additionalModelResponseFieldPaths")
        then Some (body_field rc "additionalModelResponseFieldPaths") else None).
Proof.
  intros Hb passed. unfold passed, call_arguments. rewrite !lookup_omap.
  destruct (builder_lookup rc rc' api_inputs stream_model "system" Hb) as [_ ->].
  destruct (builder_lookup rc rc' api_inputs stream_model
              "additionalModelRequestFields" Hb) as [_ ->].
  destruct (builder_lookup rc rc' api_inputs stream_model
              "additionalModelResponseFieldPaths" Hb) as [_ ->].
  simpl. repeat split; by destruct (truthy _).
Qed.

Lemma builder_optional_arguments_witness :
  let passed (k : string) :=
    call_arguments request_with_system_after system_api_inputs !! k in
  passed "system" = Some (VList [VDict {["text" := VStr "Be brief"]}])
  /\ passed "additionalModelRequestFields" = Some (VDict {["top_k" := VInt 5]})
  /\ passed "additionalModelResponseFieldPaths" = None.
Proof.
  exact (builder_optional_arguments request_with_system request_with_system_after
           system_api_inputs (VBool true) request_with_system_built).
Defined.

(** X4: whenever the builder succeeds, the call arguments hold no key besides
    [modelId], [messages], [inferenceConfig], [system],
    [additionalModelRequestFields] and [additionalModelResponseFieldPaths]:
    every other key of [additional_request_body] is dropped without notice,
    and [toolConfig] is never passed. *)
Theorem builder_passes_known_keys_only (rc rc' : RequestConfig)
    (api_inputs : gmap string argval) (stream_model : pyval) (k : string) :
  request_builder rc = (Ok (api_inputs, stream_model), rc') ->
  k ∉ api_keys ->
  call_arguments rc' api_inputs !! k = None.
Proof.
  intros Hb Hk. unfold call_arguments. rewrite lookup_omap.
  destruct (builder_lookup rc rc' api_inputs stream_model k Hb) as [_ ->].
  unfold api_keys in Hk.
  repeat case_decide; subst; try done; set_solver.
Qed.

Lemma builder_passes_known_keys_only_witness :
  call_arguments request_with_system_after system_api_inputs !! "note" = None
  /\ call_arguments request_with_system_after system_api_inputs !! "toolConfig" = None.
Proof.
  split;
    apply (builder_passes_known_keys_only request_with_system request_with_system_after
             system_api_inputs (VBool true) _ request_with_system_built);
    unfold api_keys; rewrite !not_elem_of_cons;
    repeat split; try discriminate; apply not_elem_of_nil.
Defined.

Lemma stream_directive (sp : option dict) :
  (extract_stream (rename_max_tokens sp)).1
  = default (VBool false) (sp ≫= (.!! "stream")).
Proof.
  destruct sp as [d|]; [|done].
  rewrite rename_max_tokens_spec, extract_stream_spec. simpl.
  destruct (d !! "max_tokens"); [|done].
  by rewrite lookup_delete_ne, lookup_insert_ne.
Qed.

Lemma builder_stream_model (rc rc' : RequestConfig)
    (api_inputs : gmap string argval) (stream_model : pyval) :
  request_builder rc = (Ok (api_inputs, stream_model), rc') ->
  stream_model = default (VBool false) (sampling_params rc ≫= (.!! "stream")).
Proof.
  rewrite <- stream_directive. unfold request_builder.
  destruct (prompt rc) as [p n]. destruct (extract_stream _) as [sm ic]. simpl.
  destruct (additional_request_body rc) as [body|];
    [destruct (add_request_body _ _)|]; congruence.
Qed.

(** X5: whenever the builder succeeds, the stream directive is the value of
    the [stream] key of [sampling_params] ([False] when there is none), and
    [inferenceConfig] is passed exactly when the sampling parameters are not
    empty once [stream] is removed and [max_tokens] renamed; the dictionary
    passed then holds neither a [stream] nor a [max_tokens] key. *)
Theorem builder_inference_config (rc rc' : RequestConfig)
    (api_inputs : gmap string argval) (stream_model : pyval) :
  request_builder rc = (Ok (api_inputs, stream_model), rc') ->
  stream_model = default (VBool false) (sampling_params rc ≫= (.!! "stream"))
  /\ call_arguments rc' api_inputs !! "inferenceConfig"
     = match sampling_params rc with
       | Some d => if truthy (VDict (normalized d)) then Some (VDict (normalized d)) else None
       | None => None
       end
  /\ forall d : dict,
       call_arguments rc' api_inputs !! "inferenceConfig" = Some (VDict d) ->
       d !! "stream" = None /\ d !! "max_tokens" = None.
Proof.
  intros Hb.
  pose proof (builder_stream_model rc rc' api_inputs stream_model Hb) as Hsm.
  assert (Hrc : sampling_params rc' = normalized <$> sampling_params rc).
  { rewrite <- builder_sampling_params. by rewrite Hb. }
  assert (Hic : call_arguments rc' api_inputs !! "inferenceConfig"
                = match sampling_params rc with
                  | Some d =>
                      if truthy (VDict (normalized d)) then Some (VDict (normalized d))
                      else None
                  | None => None
                  end).
  { unfold call_arguments. rewrite lookup_omap.
    destruct (builder_lookup rc rc' api_inputs stream_model "inferenceConfig" Hb)
      as [_ ->].
    simpl. rewrite Hrc. destruct (sampling_params rc) as [d|]; [|done].
    simpl. by destruct (negb _). }
  split; [done|]. split; [done|].
  intros d. rewrite Hic. destruct (sampling_params rc) as [d0|]; [|done].
  destruct (truthy _); [|done]. intros [= <-].
  by rewrite !normalized_lookup.
Qed.

Lemma builder_inference_config_witness :
  call_arguments request_example_after example_api_inputs !! "inferenceConfig"
  = Some (VDict (normalized sampling_example)).
Proof.
  exact (proj1 (proj2 (builder_inference_config request_example request_example_after
                         example_api_inputs (VBool true) request_example_built))).
Defined.

(** X6: the builder fails in one case only.  It raises [NameError] for the
    unbound name [tool_config] when [additional_request_body] holds a truthy
    [toolConfig], and succeeds for every other request. *)
Theorem builder_fails_only_on_tool_config (rc : RequestConfig) :
  if truthy (body_field rc "toolConfig")
  then (request_builder rc).1 = Raise (NameError "tool_config")
  else is_ok (request_builder rc).1 = true.
Proof.
  unfold request_builder, body_field. destruct (prompt rc) as [p n].
  destruct (extract_stream _) as [sm ic].
  destruct (additional_request_body rc) as [body|]; [|done]. simpl.
  unfold add_request_body. by destruct (truthy (default _ (body !! "toolConfig"))).
Qed.

(** ** The selected call *)

Lemma engine_selected_call (clock : nat -> float) (p1 p2 : Provider)
    (api_inputs : dict) (stream_model : pyval) :
  (if truthy stream_model
   then converse_stream p1 api_inputs = converse_stream p2 api_inputs
   else converse p1 api_inputs = converse p2 api_inputs) ->
  timing_engine clock p1 api_inputs stream_model
  = timing_engine clock p2 api_inputs stream_model.
Proof.
  intros H. unfold timing_engine, try_except, try_body.
  destruct (truthy stream_model).
  - unfold bind at 1 3, consume_stream. by rewrite H.
  - unfold bind at 1 3, read_response, bind at 1 21. by rewrite H.
Qed.

(** X7: the stream directive alone selects the remote call.  With a truthy
    directive only [converse_stream] is called, otherwise only [converse]:
    two providers that agree on the selected call give the same result,
    whatever their other call would do. *)
Theorem only_the_selected_call_is_made (clock : nat -> float) (p1 p2 : Provider)
    (environ : gmap string string) (rc : RequestConfig) :
  (forall api_inputs : dict,
     if truthy (default (VBool false) (sampling_params rc ≫= (.!! "stream")))
     then converse_stream p1 api_inputs = converse_stream p2 api_inputs
     else converse p1 api_inputs = converse p2 api_inputs) ->
  llm_request clock p1 environ rc = llm_request clock p2 environ rc.
Proof.
  intros H. unfold llm_request.
  destruct (negb (env_set environ "AWS_ACCESS_KEY_ID")); [done|].
  destruct (negb (env_set environ "AWS_SECRET_ACCESS_KEY")); [done|].
  destruct (negb (env_set environ "AWS_REGION_NAME")); [done|].
  destruct (request_builder rc) as [[[api_inputs sm]|e] rc'] eqn:Hb; [|done].
  rewrite (engine_selected_call clock p1 p2 (call_arguments rc' api_inputs) sm); [done|].
  rewrite (builder_stream_model rc rc' api_inputs sm Hb). apply H.
Qed.

Lemma only_the_selected_call_is_made_witness :
  llm_request ticking_clock failing_provider environ_ok request_example
  = llm_request ticking_clock
      {| converse := fun _ => Ok response_example;
         converse_stream := converse_stream failing_provider |}
      environ_ok request_example.
Proof.
  apply only_the_selected_call_is_made. intros api_inputs. reflexivity.
Defined.

(** ** Events of the stream *)

Lemma unrecognised_event_skipped (clock : nat -> float) (event : dict) (st : Locals) :
  recognised event = false -> handle_event clock event st = (Ok tt, st).
Proof.
  unfold recognised, handle_event. intros H.
  apply orb_false_iff in H as [H H4]. apply orb_false_iff in H as [H H3].
  apply orb_false_iff in H as [H1 H2]. by rewrite H1, H2, H3, H4.
Qed.

Lemma for_each_recognised (clock : nat -> float) (events : list dict) (st : Locals) :
  for_each (filter (fun event => recognised event = true) events) (handle_event clock) st
  = for_each events (handle_event clock) st.
Proof.
  revert st. induction events as [|event events IH]; intros st; [done|].
  rewrite filter_cons. destruct (recognised event) eqn:E.
  - rewrite decide_True by done. simpl. by apply bind_ext.
  - rewrite decide_False by done. simpl. unfold bind.
    by rewrite (unrecognised_event_skipped clock event st E).
Qed.

(** X8: events that carry none of the keys [messageStart],
    [contentBlockDelta], [messageStop] and [metadata] are skipped: removing
    them all from the stream changes nothing of what [llm_request] returns or
    raises. *)
Theorem unrecognised_events_are_skipped (clock : nat -> float)
    (blocking : dict -> outcome dict) (events : list dict) (ending : option exn)
    (environ : gmap string string) (rc : RequestConfig) :
  llm_request clock
    {| converse := blocking; converse_stream := fun _ => Stream events ending |}
    environ rc
  = llm_request clock
      {| converse := blocking;
         converse_stream :=
           fun _ => Stream (filter (fun event => recognised event = true) events) ending |}
      environ rc.
Proof.
  unfold llm_request.
  destruct (negb (env_set environ "AWS_ACCESS_KEY_ID")); [done|].
  destruct (negb (env_set environ "AWS_SECRET_ACCESS_KEY")); [done|].
  destruct (negb (env_set environ "AWS_REGION_NAME")); [done|].
  destruct (request_builder rc) as [[[api_inputs sm]|e] rc']; [|done].
  replace (timing_engine clock
             {| converse := blocking; converse_stream := fun _ => Stream events ending |}
             (call_arguments rc' api_inputs) sm)
    with (timing_engine clock
            {| converse := blocking;
               converse_stream :=
                 fun _ => Stream (filter (fun event => recognised event = true) events)
                            ending |}
            (call_arguments rc' api_inputs) sm); [done|].
  unfold timing_engine, try_except, try_body. destruct (truthy sm); [|done].
  unfold bind at 1 3, consume_stream. simpl. unfold bind at 1 3.
  by rewrite for_each_recognised.
Qed.

(** X9: a content delta whose [delta] has no [text] entry (a tool-use delta,
    say) is timed like any other, its gap is appended and the clock is read
    twice, and only then does reading the text raise [KeyError]: the text is
    as before and no later event of the stream is handled. *)
Theorem delta_without_text_is_timed_then_fails (clock : nat -> float) (event : dict)
    (rest : list dict) (st : Locals) (body d : dict) :
  event !! "messageStart" = None ->
  event !! "contentBlockDelta" = Some (VDict body) ->
  body !! "delta" = Some (VDict d) ->
  d !! "text" = None ->
  exists st' : Locals,
    for_each (event :: rest) (handle_event clock) st = (Raise (KeyError (VStr "text")), st')
    /\ time_to_next_token st'
       = (time_to_next_token st
          ++ [(clock (clock_reads st)
               - (if truthy (ttft st) then most_recent_received_token_time st
                  else start_time st))%float])%list
    /\ clock_reads st' = S (S (clock_reads st))
    /\ generated_text st' = generated_text st.
Proof.
  intros Hs Hd Hb Ht. cbn [for_each]. unfold bind at 1, handle_event, has_key.
  rewrite Hs, Hd. unfold when, bind at 1, ret, bind at 1, on_content_block_delta.
  unfold bind at 1. destruct (record_arrival_shape clock st) as (t & ->).
  unfold bind, gets, lift, getitem. rewrite Hd, Hb, Ht. by eexists.
Qed.

Lemma delta_without_text_is_timed_then_fails_witness :
  exists st' : Locals,
    for_each [tool_use_event; content_delta_event "late"] (handle_event ticking_clock)
      (initial_locals ticking_clock)
    = (Raise (KeyError (VStr "text")), st')
    /\ clock_reads st' = 4%nat
    /\ generated_text st' = VStr "".
Proof.
  destruct (delta_without_text_is_timed_then_fails ticking_clock tool_use_event
              [content_delta_event "late"] (initial_locals ticking_clock)
              {["delta" := VDict {["toolUse" := VDict {["input" := VStr "{"]}]}]}
              {["toolUse" := VDict {["input" := VStr "{"]}]})
    as (st' & H & _ & Hn & Hg); try reflexivity.
  by exists st'.
Defined.

Lemma transition_gap_count (clock : nat -> float) (v : StreamEvent) (st : Locals) :
  length (time_to_next_token (transition clock v st).2)
  = (length (time_to_next_token st) + (if is_content_delta v then 1 else 0))%nat.
Proof.
  destruct v as [body|body|body|body]; simpl.
  - rewrite Nat.add_0_r.
    apply (invariant_bind (I := fun st' => length (time_to_next_token st') = _));
      eauto with inv.
  - unfold bind at 1. destruct (record_arrival_shape clock st) as (t & ->).
    set (st1 := set_most_recent_received_token_time _ _).
    assert (H1 : length (time_to_next_token st1) = (length (time_to_next_token st) + 1)%nat).
    { unfold st1. simpl. by rewrite length_app. }
    rewrite <- H1.
    apply (invariant_bind (I := fun st' => length (time_to_next_token st') = _));
      eauto 20 with inv.
  - rewrite Nat.add_0_r.
    apply (invariant_bind (I := fun st' => length (time_to_next_token st') = _));
      eauto with inv.
  - rewrite Nat.add_0_r.
    apply (invariant_bind (I := fun st' => length (time_to_next_token st') = _));
      eauto 20 with inv.
Qed.

Lemma delta_count_cons (v : StreamEvent) (vs : list StreamEvent) :
  length (filter (fun v => is_content_delta v = true) (v :: vs))
  = ((if is_content_delta v then 1 else 0)
     + length (filter (fun v => is_content_delta v = true) vs))%nat.
Proof.
  rewrite filter_cons. destruct (is_content_delta v).
  - by rewrite decide_True.
  - by rewrite decide_False.
Qed.

Lemma for_each_gap_count (clock : nat -> float) (vs : list StreamEvent) (st : Locals) :
  let r := for_each vs (transition clock) st in
  (length (time_to_next_token r.2)
   <= length (time_to_next_token st) + length (filter (fun v => is_content_delta v = true) vs))%nat
  /\ (r.1 = Ok tt ->
      length (time_to_next_token r.2)
      = (length (time_to_next_token st)
         + length (filter (fun v => is_content_delta v = true) vs))%nat).
Proof.
  revert st. induction vs as [|v vs IH]; intros st.
  { simpl. split; [lia|]. intros _. lia. }
  rewrite delta_count_cons. cbn [for_each].
  pose proof (transition_gap_count clock v st) as Hv.
  unfold bind. destruct (transition clock v st) as [[[]|e] st1]; cbn [snd fst] in *.
  - destruct (IH st1) as [Hle Heq]. cbv zeta in Hle, Heq.
    split; [lia|]. intros H. specialize (Heq H). lia.
  - split; [lia|done].
Qed.

Lemma variants_delta_count (events : list dict) :
  length (filter (fun v => is_content_delta v = true) (flat_map variants events))
  = count_deltas events.
Proof.
  unfold count_deltas. induction events as [|event events IH]; [done|].
  simpl. rewrite filter_app, length_app, IH, filter_cons.
  unfold variants, variant_of, has_key.
  destruct (event !! "messageStart"), (event !! "contentBlockDelta"),
    (event !! "messageStop"), (event !! "metadata"); reflexivity.
Qed.

(** X10: on the streaming path there are never more inter-arrival gaps than
    content deltas in the stream, and exactly as many when every event of the
    stream is handled without failure. *)
Theorem gaps_count_content_deltas (clock : nat -> float) (bedrock_client : Provider)
    (api_inputs : dict) (stream_model : pyval) (events : list dict)
    (ending : option exn) :
  truthy stream_model = true ->
  converse_stream bedrock_client api_inputs = Stream events ending ->
  let st := (timing_engine clock bedrock_client api_inputs stream_model).2 in
  (length (time_to_next_token st) <= count_deltas events)%nat
  /\ ((for_each events (handle_event clock) (initial_locals clock)).1 = Ok tt ->
      length (time_to_next_token st) = count_deltas events).
Proof.
  intros Hs Hr st.
  destruct (for_each events (handle_event clock) (initial_locals clock)) as [o st1] eqn:E.
  destruct (engine_after_stream clock bedrock_client api_inputs stream_model events
              ending o st1 Hs Hr E) as (_ & Hg & _).
  fold st in Hg. rewrite Hg.
  rewrite (for_each_flat_map variants _ (transition clock)) in E
    by apply handle_event_variants.
  destruct (for_each_gap_count clock (flat_map variants events) (initial_locals clock))
    as [Hle Heq].
  rewrite E, variants_delta_count in Hle, Heq. simpl in Hle, Heq.
  split; [lia|]. simpl. intros ->. by apply Heq.
Qed.

Lemma gaps_count_content_deltas_witness :
  length (time_to_next_token
            (timing_engine ticking_clock failing_provider ∅ (VBool true)).2)
  = 2%nat.
Proof.
  apply (gaps_count_content_deltas ticking_clock failing_provider ∅ (VBool true)
           _ (Some (ProviderError "connection reset")) eq_refl eq_refl).
  reflexivity.
Defined.

(** ** What a returned record holds *)

Lemma report_outcome (st : Locals) :
  match getitem (usage st) "totalTokens", getitem (usage st) "outputTokens",
        getitem (usage st) "inputTokens" with
  | Ok _, Ok _, Ok _ => is_ok (report st).1 = true
  | Raise e, _, _ => (report st).1 = Raise e
  | Ok _, Raise e, _ => (report st).1 = Raise e
  | Ok _, Ok _, Raise e => (report st).1 = Raise e
  end.
Proof.
  unfold report, bind, gets, set_metric, modify, lift. simpl.
  destruct (getitem (usage st) "totalTokens"); [|done].
  destruct (getitem (usage st) "outputTokens"); [|done].
  by destruct (getitem (usage st) "inputTokens").
Qed.

Lemma llm_request_return_inv (clock : nat -> float) (bedrock_client : Provider)
    (environ : gmap string string) (rc rc' : RequestConfig)
    (m : BenchmarkMetrics) (text : pyval) :
  (llm_request clock bedrock_client environ rc).1 = Ok (m, text, rc') ->
  exists (api_inputs : gmap string argval) (stream_model tot out inp : pyval),
    credentials_set environ = true
    /\ request_builder rc = (Ok (api_inputs, stream_model), rc')
    /\ let st := (timing_engine clock bedrock_client
                    (call_arguments rc' api_inputs) stream_model).2 in
       text = generated_text st
       /\ getitem (usage st) "totalTokens" = Ok tot
       /\ getitem (usage st) "outputTokens" = Ok out
       /\ getitem (usage st) "inputTokens" = Ok inp
       /\ m !! INTER_TOKEN_LAT = Some (py_sum (time_to_next_token st))
       /\ m !! TTFT = Some (ttft st)
       /\ m !! E2E_LAT = Some (total_request_time st)
       /\ m !! REQ_OUTPUT_THROUGHPUT = Some (output_throughput st)
       /\ m !! NUM_TOTAL_TOKENS = Some tot
       /\ m !! NUM_OUTPUT_TOKENS = Some out
       /\ m !! NUM_INPUT_TOKENS = Some inp
       /\ m !! ERROR_MSG = benchmark_metrics st !! ERROR_MSG
       /\ m !! ERROR_CODE = benchmark_metrics st !! ERROR_CODE.
Proof.
  intros H.
  destruct (credentials_set environ) eqn:Hc.
  2:{ unfold credentials_set in Hc. unfold llm_request in H.
      destruct (env_set environ "AWS_ACCESS_KEY_ID"); [|done].
      destruct (env_set environ "AWS_SECRET_ACCESS_KEY"); [|done].
      by destruct (env_set environ "AWS_REGION_NAME"). }
  destruct (request_builder rc) as [[[api_inputs sm]|e] rc1] eqn:Hb.
  2:{ unfold llm_request in H. apply credentials_set_true in Hc as (H1 & H2 & H3).
      by rewrite H1, H2, H3, Hb in H. }
  rewrite (llm_request_unfold _ _ _ _ _ _ _ Hc Hb) in H. cbv zeta in H.
  set (st := (timing_engine clock bedrock_client (call_arguments rc1 api_inputs) sm).2) in *.
  pose proof (report_outcome st) as Ho.
  destruct (getitem (usage st) "totalTokens") as [tot|e1] eqn:E1.
  2:{ destruct (report st) as [[[]|e] st']; simpl in Ho; [done|]. done. }
  destruct (getitem (usage st) "outputTokens") as [out|e2] eqn:E2.
  2:{ destruct (report st) as [[[]|e] st']; simpl in Ho; [done|]. done. }
  destruct (getitem (usage st) "inputTokens") as [inp|e3] eqn:E3.
  2:{ destruct (report st) as [[[]|e] st']; simpl in Ho; [done|]. done. }
  destruct (report_ok st tot out inp E1 E2 E3) as (m' & Hr & Hm).
  rewrite Hr in H. simpl in H. injection H as <- <- <-.
  exists api_inputs, sm, tot, out, inp. split; [done|]. split; [done|].
  cbv zeta. fold st. split; [done|]. by repeat (split; [done|]).
Qed.

(** ** The timing of a stream, read from the clock *)

Lemma transition_timing (clock : nat -> float) (v : StreamEvent) (st : Locals) :
  timing_fields (transition clock v st).2
  = if is_content_delta v then timing_fields (record_arrival clock st).2
    else timing_fields st.
Proof.
  assert (Hrest : forall (body : pyval) (st1 : Locals),
             timing_fields
               ((g <- gets generated_text ;;
                 delta <- lift (getitem body "delta") ;;
                 text <- lift (getitem delta "text") ;;
                 g' <- lift (str_add g text) ;;
                 modify (set_generated_text g'))%py st1).2
             = timing_fields st1).
  { intros body st1. unfold timing_fields.
    apply (invariant_bind
             (I := fun st' =>
                     (clock_reads st', start_time st', time_to_next_token st', ttft st',
                      most_recent_received_token_time st') = _));
      eauto 20 with inv. }
  destruct v as [body|body|body|body]; simpl.
  - unfold timing_fields.
    apply (invariant_bind
             (I := fun st' =>
                     (clock_reads st', start_time st', time_to_next_token st', ttft st',
                      most_recent_received_token_time st') = _));
      eauto with inv.
  - unfold bind at 1. destruct (record_arrival clock st) as [[[]|e] st1]; [|done].
    apply Hrest.
  - unfold timing_fields.
    apply (invariant_bind
             (I := fun st' =>
                     (clock_reads st', start_time st', time_to_next_token st', ttft st',
                      most_recent_received_token_time st') = _));
      eauto with inv.
  - unfold timing_fields.
    apply (invariant_bind
             (I := fun st' =>
                     (clock_reads st', start_time st', time_to_next_token st', ttft st',
                      most_recent_received_token_time st') = _));
      eauto 20 with inv.
Qed.

Lemma clock_gaps_S (clock : nat -> float) (k : nat) :
  (clock_gaps clock (S k)
   ++ [(clock (2 * S k + 2)%nat - clock (2 * S k + 1)%nat)%float])%list
  = clock_gaps clock (S (S k)).
Proof. unfold clock_gaps. by rewrite seq_S, map_app. Qed.

#[local] Arguments clock_gaps : simpl never.

Lemma record_arrival_timing (clock : nat -> float) (st : Locals) (k : nat) :
  PrimFloat.eqb (clock 2%nat - clock 0%nat) 0%float = false ->
  timing_fields st = timing_after clock k ->
  timing_fields (record_arrival clock st).2 = timing_after clock (S k).
Proof.
  intros Hnz H. unfold timing_fields, timing_after in H.
  injection H as Hr Hs Hg Ht Hm.
  destruct k as [|k].
  - rewrite record_arrival_unset by (by rewrite Ht).
    unfold timing_fields, timing_after. cbn [snd]. cbv zeta.
    destruct st as [r g ms u mt bm gaps tr tt ec em ot trt s mr n]. simpl in *.
    by subst n s gaps tt mr.
  - rewrite record_arrival_set by (rewrite Ht; by apply truthy_float).
    unfold timing_fields, timing_after. cbn [snd]. cbv zeta.
    destruct st as [r g ms u mt bm gaps tr tt ec em ot trt s mr n]. simpl in *.
    subst n s gaps tt mr.
    rewrite <- clock_gaps_S.
    repeat match goal with |- (_, _) = (_, _) => f_equal end; try (f_equal; lia).
Qed.

Lemma transitions_timing (clock : nat -> float) (vs : list StreamEvent) (st : Locals)
    (k : nat) :
  PrimFloat.eqb (clock 2%nat - clock 0%nat) 0%float = false ->
  timing_fields st = timing_after clock k ->
  (for_each vs (transition clock) st).1 = Ok tt ->
  timing_fields (for_each vs (transition clock) st).2
  = timing_after clock (k + length (filter (fun v => is_content_delta v = true) vs)).
Proof.
  intros Hnz. revert st k. induction vs as [|v vs IH]; intros st k Hst Hok.
  { simpl. by rewrite Nat.add_0_r. }
  rewrite delta_count_cons. cbn [for_each] in *.
  pose proof (transition_timing clock v st) as Hv.
  unfold bind in *. destruct (transition clock v st) as [[[]|e] st1]; [|done].
  cbn [snd] in Hv.
  destruct (is_content_delta v).
  - rewrite (record_arrival_timing clock st k Hnz Hst) in Hv.
    rewrite (IH st1 (S k) Hv Hok). f_equal. lia.
  - rewrite Hst in Hv. rewrite (IH st1 k Hv Hok). f_equal.
Qed.

Lemma initial_timing (clock : nat -> float) :
  timing_fields (initial_locals clock) = timing_after clock 0.
Proof. reflexivity. Qed.

(** X11: on the streaming path, when every event is handled without failure
    and the first content delta does not arrive at time zero, the gaps are
    these readings of the clock: the first is measured from the start of the
    call, every later one from the second reading taken for the delta before
    it, so the time between the two readings of one delta is in no gap; the
    time to first token is the first gap, and stays [0] without deltas. *)
Theorem stream_timing_read_from_clock (clock : nat -> float) (bedrock_client : Provider)
    (api_inputs : dict) (stream_model : pyval) (events : list dict)
    (ending : option exn) :
  truthy stream_model = true ->
  converse_stream bedrock_client api_inputs = Stream events ending ->
  (for_each events (handle_event clock) (initial_locals clock)).1 = Ok tt ->
  PrimFloat.eqb (clock 2%nat - clock 0%nat) 0%float = false ->
  let st := (timing_engine clock bedrock_client api_inputs stream_model).2 in
  time_to_next_token st = clock_gaps clock (count_deltas events)
  /\ ttft st = match count_deltas events with
               | 0 => VInt 0
               | S _ => VFloat (clock 2%nat - clock 0%nat)
               end.
Proof.
  intros Hs Hr Hok Hnz.
  destruct (for_each events (handle_event clock) (initial_locals clock))
    as [o st1] eqn:E.
  destruct (engine_after_stream clock bedrock_client api_inputs stream_model events
              ending o st1 Hs Hr E) as (Ht & Hg & _).
  cbv zeta. rewrite Ht, Hg.
  rewrite (for_each_flat_map variants _ (transition clock)) in E
    by apply handle_event_variants.
  pose proof (transitions_timing clock (flat_map variants events) (initial_locals clock)
                0 Hnz (initial_timing clock)) as H.
  rewrite E, variants_delta_count in H. specialize (H Hok).
  unfold timing_fields, timing_after in H. cbn [snd] in H.
  by injection H as _ _ -> -> _.
Qed.

Lemma stream_timing_read_from_clock_witness :
  time_to_next_token
    (timing_engine ticking_clock
       (stream_provider
          [content_delta_event "Hel"; content_delta_event "lo";
           metadata_event usage_example] None) ∅ (VBool true)).2
  = clock_gaps ticking_clock 2.
Proof.
  apply (stream_timing_read_from_clock ticking_clock
           (stream_provider
              [content_delta_event "Hel"; content_delta_event "lo";
               metadata_event usage_example] None) ∅ (VBool true)
           _ None eq_refl eq_refl eq_refl).
  reflexivity.
Defined.

(** ** The end of the [try] body *)

Lemma try_body_end (clock : nat -> float) (first : M unit) (st st1 : Locals) (out : pyval) :
  first st = (Ok tt, st1) ->
  getitem (usage st1) "outputTokens" = Ok out ->
  let elapsed := (clock (clock_reads st1) - start_time st1)%float in
  let st' :=
    (try_except
       (first ;;
        u <- gets usage ;;
        received <- lift (getitem u "outputTokens") ;;
        modify (set_tokens_received received) ;;
        now <- monotonic clock ;;
        s <- gets start_time ;;
        modify (set_total_request_time (VFloat (now - s))) ;;
        throughput <- lift (truediv received (now - s)) ;;
        modify (set_output_throughput throughput))%py
       on_exception st).2 in
  total_request_time st' = VFloat elapsed
  /\ tokens_received st' = out
  /\ output_throughput st'
     = match truediv out elapsed with
       | Ok v => v
       | Raise _ => output_throughput st1
       end
  /\ usage st' = usage st1
  /\ generated_text st' = generated_text st1
  /\ time_to_next_token st' = time_to_next_token st1
  /\ ttft st' = ttft st1
  /\ clock_reads st' = S (clock_reads st1).
Proof.
  intros H1 H2 elapsed st'.
  set (st2 := set_total_request_time (VFloat elapsed)
                (set_clock_reads (S (clock_reads st1)) (set_tokens_received out st1))).
  assert (Hst : st' = match truediv out elapsed with
                      | Ok v => set_output_throughput v st2
                      | Raise e => (on_exception e st2).2
                      end).
  { unfold st', try_except, bind at 1. rewrite H1.
    unfold bind, gets, lift, modify, monotonic. rewrite H2. simpl.
    fold elapsed. by destruct (truediv out elapsed). }
  clearbody st'. subst st'.
  destruct (truediv out elapsed); by destruct st1.
Qed.

Lemma transition_reads (clock : nat -> float) (v : StreamEvent) (st : Locals) :
  let st' := (transition clock v st).2 in
  (clock_reads st', start_time st', output_throughput st')
  = ((clock_reads st + if is_content_delta v then 2 else 0)%nat,
     start_time st, output_throughput st).
Proof.
  cbv zeta.
  set (I := fun (x : nat * float * pyval) (st' : Locals) =>
              (clock_reads st', start_time st', output_throughput st') = x).
  change (I ((clock_reads st + if is_content_delta v then 2 else 0)%nat,
             start_time st, output_throughput st) (transition clock v st).2).
  destruct v as [body|body|body|body]; unfold transition, is_content_delta.
  - rewrite Nat.add_0_r. apply invariant_bind; unfold I; eauto with inv.
  - unfold bind at 1. destruct (record_arrival_shape clock st) as (t & ->).
    apply invariant_bind; [unfold I; eauto with inv| |].
    + intros g. unfold I. eauto 20 with inv.
    + unfold I. simpl. f_equal. f_equal. lia.
  - rewrite Nat.add_0_r. apply invariant_bind; unfold I; eauto with inv.
  - rewrite Nat.add_0_r. apply invariant_bind; unfold I; eauto 20 with inv.
Qed.

Lemma transitions_reads (clock : nat -> float) (vs : list StreamEvent) (st : Locals) :
  (for_each vs (transition clock) st).1 = Ok tt ->
  let st' := (for_each vs (transition clock) st).2 in
  (clock_reads st', start_time st', output_throughput st')
  = ((clock_reads st + 2 * length (filter (fun v => is_content_delta v = true) vs))%nat,
     start_time st, output_throughput st).
Proof.
  cbv zeta. revert st. induction vs as [|v vs IH]; intros st Hok.
  { simpl. by rewrite Nat.add_0_r. }
  rewrite delta_count_cons. cbn [for_each] in *.
  pose proof (transition_reads clock v st) as Hv. cbv zeta in Hv.
  unfold bind in *. destruct (transition clock v st) as [[[]|e] st1]; [|done].
  cbn [snd] in Hv. injection Hv as Hr Hs Ho.
  rewrite (IH st1 Hok), Hr, Hs, Ho. f_equal. f_equal. destruct (is_content_delta v); lia.
Qed.

Lemma engine_stream_end (clock : nat -> float) (bedrock_client : Provider)
    (args : dict) (stream_model : pyval) (events : list dict) (out : pyval) :
  truthy stream_model = true ->
  converse_stream bedrock_client args = Stream events None ->
  (for_each events (handle_event clock) (initial_locals clock)).1 = Ok tt ->
  let st1 := (for_each events (handle_event clock) (initial_locals clock)).2 in
  getitem (usage st1) "outputTokens" = Ok out ->
  let elapsed := (clock (2 * count_deltas events + 2)%nat - clock 0%nat)%float in
  let st := (timing_engine clock bedrock_client args stream_model).2 in
  total_request_time st = VFloat elapsed
  /\ output_throughput st
     = match truediv out elapsed with
       | Ok v => v
       | Raise _ => VInt 0
       end
  /\ usage st = usage st1
  /\ generated_text st = generated_text st1
  /\ time_to_next_token st = time_to_next_token st1.
Proof.
  intros Hs Hr Hok st1 Hout elapsed st.
  assert (Hfirst : consume_stream clock bedrock_client args (initial_locals clock)
                   = (Ok tt, st1)).
  { rewrite (consume_stream_events _ _ _ _ _ _ Hr). unfold st1.
    destruct (for_each events (handle_event clock) (initial_locals clock)) as [o s1].
    simpl in Hok. by subst o. }
  assert (Hreads : (clock_reads st1, start_time st1, output_throughput st1)
                   = ((2 * count_deltas events + 2)%nat, clock 0%nat, VInt 0)).
  { unfold st1 in *.
    rewrite (for_each_flat_map variants _ (transition clock)) in Hok |- *
      by apply handle_event_variants.
    pose proof (transitions_reads clock _ _ Hok) as H. cbv zeta in H.
    rewrite H, variants_delta_count. simpl. f_equal. f_equal. lia. }
  injection Hreads as Hn Hst Hth.
  destruct (try_body_end clock _ _ _ out Hfirst Hout)
    as (Htotal & _ & Hthr & Hu & Hg & Hgaps & _).
  rewrite Hn, Hst in Htotal, Hthr. rewrite Hth in Hthr. fold elapsed in Htotal, Hthr.
  assert (He : timing_engine clock bedrock_client args stream_model
               = try_except
                   (consume_stream clock bedrock_client args ;;
                    u <- gets usage ;;
                    received <- lift (getitem u "outputTokens") ;;
                    modify (set_tokens_received received) ;;
                    now <- monotonic clock ;;
                    s <- gets start_time ;;
                    modify (set_total_request_time (VFloat (now - s))) ;;
                    throughput <- lift (truediv received (now - s)) ;;
                    modify (set_output_throughput throughput))%py
                   on_exception (initial_locals clock)).
  { unfold timing_engine, try_body. by rewrite Hs. }
  unfold st. rewrite He. repeat split; assumption.
Qed.

(** X12: a stream that ends normally, every event handled without failure and
    the usage complete: the end-to-end latency is the reading of the clock
    taken after the stream, two readings for each content delta after the
    call started, minus the first reading; the throughput is the reported
    output tokens over that time, and stays the integer [0] when the division
    fails, the failure being swallowed by the [except] clause. *)
Theorem stream_latency_and_throughput (clock : nat -> float) (bedrock_client : Provider)
    (environ : gmap string string) (rc rc' : RequestConfig)
    (api_inputs : gmap string argval) (stream_model : pyval)
    (events : list dict) (tot out inp : pyval) :
  credentials_set environ = true ->
  request_builder rc = (Ok (api_inputs, stream_model), rc') ->
  truthy stream_model = true ->
  converse_stream bedrock_client (call_arguments rc' api_inputs) = Stream events None ->
  (for_each events (handle_event clock) (initial_locals clock)).1 = Ok tt ->
  let st1 := (for_each events (handle_event clock) (initial_locals clock)).2 in
  getitem (usage st1) "totalTokens" = Ok tot ->
  getitem (usage st1) "outputTokens" = Ok out ->
  getitem (usage st1) "inputTokens" = Ok inp ->
  let elapsed := (clock (2 * count_deltas events + 2)%nat - clock 0%nat)%float in
  exists m : BenchmarkMetrics,
    llm_request clock bedrock_client environ rc = (Ok (m, generated_text st1, rc'), rc')
    /\ m !! E2E_LAT = Some (VFloat elapsed)
    /\ m !! REQ_OUTPUT_THROUGHPUT
       = Some (match truediv out elapsed with
               | Ok v => v
               | Raise _ => VInt 0
               end)
    /\ m !! NUM_OUTPUT_TOKENS = Some out.
Proof.
  intros Hc Hb Hs Hr Hok st1 Htot Hout Hinp elapsed.
  destruct (engine_stream_end clock bedrock_client _ stream_model events out Hs Hr Hok Hout)
    as (Htotal & Hthr & Hu & Hg & _).
  destruct (llm_request_returns clock bedrock_client environ rc rc' api_inputs
              stream_model _ tot out inp Hc Hb eq_refl)
    as (m & Hm & _ & _ & Hm1 & Hm2 & _ & Hm3 & _).
  1-3: by rewrite Hu.
  rewrite Hg in Hm. rewrite Htotal in Hm1. rewrite Hthr in Hm2.
  exists m. repeat split; assumption.
Qed.

Lemma stream_latency_and_throughput_witness :
  exists m : BenchmarkMetrics,
    llm_request ticking_clock
      (stream_provider
         [content_delta_event "Hel"; content_delta_event "lo";
          metadata_event usage_example] None)
      environ_ok request_example
    = (Ok (m, VStr "Hello", request_example_after), request_example_after)
    /\ m !! E2E_LAT = Some (VFloat (ticking_clock 6 - ticking_clock 0)).
Proof.
  destruct (stream_latency_and_throughput ticking_clock
              (stream_provider
                 [content_delta_event "Hel"; content_delta_event "lo";
                  metadata_event usage_example] None)
              environ_ok request_example request_example_after example_api_inputs
              (VBool true) _ (VInt 5) (VInt 2) (VInt 3)
              environ_ok_set request_example_built eq_refl eq_refl eq_refl
              eq_refl eq_refl eq_refl)
    as (m & Hm & He & _).
  exists m. split; [exact Hm | exact He].
Defined.

(** X13: on the blocking path, a failing throughput division, by an elapsed
    time of zero or by an output-token count that is no number or is too
    large for a float, is swallowed by the [except] clause: the record is
    returned all the same, with the throughput left at the integer [0], the
    end-to-end latency and the token counts set, and nothing in the error
    entries. *)
Theorem failed_division_is_swallowed (clock : nat -> float) (bedrock_client : Provider)
    (environ : gmap string string) (rc rc' : RequestConfig)
    (api_inputs : gmap string argval) (stream_model : pyval)
    (response : dict) (text u tot out inp : pyval) (e : exn) :
  credentials_set environ = true ->
  request_builder rc = (Ok (api_inputs, stream_model), rc') ->
  truthy stream_model = false ->
  converse bedrock_client (call_arguments rc' api_inputs) = Ok response ->
  blocking_response response text u ->
  getitem u "totalTokens" = Ok tot ->
  getitem u "outputTokens" = Ok out ->
  getitem u "inputTokens" = Ok inp ->
  let t := (clock 2%nat - clock 0%nat)%float in
  truediv out t = Raise e ->
  exists m : BenchmarkMetrics,
    llm_request clock bedrock_client environ rc = (Ok (m, text, rc'), rc')
    /\ m !! REQ_OUTPUT_THROUGHPUT = Some (VInt 0)
    /\ m !! E2E_LAT = Some (VFloat t)
    /\ m !! NUM_OUTPUT_TOKENS = Some out
    /\ m !! ERROR_MSG = Some (VStr "")
    /\ m !! ERROR_CODE = Some VNone.
Proof.
  intros Hc Hb Hs Hr Hwf Htot Hout Hinp t Hdiv.
  set (args := call_arguments rc' api_inputs) in *.
  destruct (read_response_ok bedrock_client args response text u (initial_locals clock)
              Hr Hwf)
    as (st1 & Hread & _ & _ & Htext & Hu & Hstart & Hreads & Hth & _).
  rewrite <- Hu in Htot, Hout, Hinp.
  destruct (try_body_end clock _ _ _ out Hread Hout)
    as (Htotal & _ & Hthr & Hu' & Hg & _).
  rewrite Hreads, Hstart in Htotal, Hthr. rewrite Hth in Hthr.
  change (clock (clock_reads (initial_locals clock))
          - start_time (initial_locals clock))%float with t in Htotal, Hthr.
  rewrite Hdiv in Hthr.
  assert (He : timing_engine clock bedrock_client args stream_model
               = try_except
                   (read_response bedrock_client args ;;
                    u <- gets usage ;;
                    received <- lift (getitem u "outputTokens") ;;
                    modify (set_tokens_received received) ;;
                    now <- monotonic clock ;;
                    s <- gets start_time ;;
                    modify (set_total_request_time (VFloat (now - s))) ;;
                    throughput <- lift (truediv received (now - s)) ;;
                    modify (set_output_throughput throughput))%py
                   on_exception (initial_locals clock)).
  { unfold timing_engine, try_body. by rewrite Hs. }
  rewrite <- He in Htotal, Hthr, Hu', Hg.
  destruct (llm_request_returns clock bedrock_client environ rc rc' api_inputs
              stream_model _ tot out inp Hc Hb eq_refl)
    as (m & Hm & _ & _ & Hm1 & Hm2 & _ & Hm3 & _).
  1-3: by (fold args; rewrite Hu').
  fold args in Hm, Hm1, Hm2. rewrite Hg, Htext in Hm. rewrite Htotal in Hm1.
  rewrite Hthr in Hm2.
  destruct (error_fields_never_populated clock bedrock_client environ rc rc' m text)
    as [Hemsg Hecode]; [by rewrite Hm|].
  exists m. repeat split; assumption.
Qed.

Lemma failed_division_is_swallowed_witness :
  exists m : BenchmarkMetrics,
    llm_request (fun _ => 0%float) blocking_provider environ_ok blocking_request
      = (Ok (m, VStr "Hello", blocking_request), blocking_request)
    /\ m !! REQ_OUTPUT_THROUGHPUT = Some (VInt 0).
Proof.
  destruct (failed_division_is_swallowed (fun _ => 0%float) blocking_provider environ_ok
              blocking_request blocking_request blocking_api_inputs (VBool false)
              response_example (VStr "Hello") response_usage (VInt 60) (VInt 50)
              (VInt 10) ZeroDivisionError)
    as (m & Hm & Hthr & _); try reflexivity.
  - exists (VDict {["message" :=
                VDict (<["role" := VStr "assistant"]>
                         {["content" := VList [VDict {["text" := VStr "Hello"]}]]})]}),
      (VDict (<["role" := VStr "assistant"]>
                         {["content" := VList [VDict {["text" := VStr "Hello"]}]]})),
      (VList [VDict {["text" := VStr "Hello"]}]),
      (VDict {["text" := VStr "Hello"]}).
    repeat split; try reflexivity; by eexists.
  - exists m. split; [exact Hm | exact Hthr].
Defined.

(** ** Records and failures *)

(** X15: whenever [llm_request] returns, the credentials were set and the
    builder succeeded; the record has an entry for each of the nine metric
    keys; the error message is the empty string and the error code is [None],
    whatever happened during the call; the three token counts are the entries
    of the usage last assigned, as they came; the text is the local
    [generated_text]; and the returned configuration is the caller's object
    as the builder left it. *)
Theorem returned_record_is_complete (clock : nat -> float) (bedrock_client : Provider)
    (environ : gmap string string) (rc rc' : RequestConfig)
    (m : BenchmarkMetrics) (text : pyval) :
  (llm_request clock bedrock_client environ rc).1 = Ok (m, text, rc') ->
  (forall k : metric_key, is_Some (m !! k))
  /\ m !! ERROR_MSG = Some (VStr "")
  /\ m !! ERROR_CODE = Some VNone
  /\ credentials_set environ = true
  /\ exists (api_inputs : gmap string argval) (stream_model tot out inp : pyval),
       request_builder rc = (Ok (api_inputs, stream_model), rc')
       /\ let st := (timing_engine clock bedrock_client
                       (call_arguments rc' api_inputs) stream_model).2 in
          text = generated_text st
          /\ getitem (usage st) "totalTokens" = Ok tot
          /\ getitem (usage st) "outputTokens" = Ok out
          /\ getitem (usage st) "inputTokens" = Ok inp
          /\ m !! NUM_TOTAL_TOKENS = Some tot
          /\ m !! NUM_OUTPUT_TOKENS = Some out
          /\ m !! NUM_INPUT_TOKENS = Some inp.
Proof.
  intros H.
  destruct (error_fields_never_populated _ _ _ _ _ _ _ H) as [Hmsg Hcode].
  destruct (llm_request_return_inv _ _ _ _ _ _ _ H)
    as (api_inputs & sm & tot & out & inp & Hc & Hb & Hst).
  cbv zeta in Hst.
  destruct Hst as (Htext & Ht & Ho & Hi & H1 & H2 & H3 & H4 & H5 & H6 & H7 & _).
  split.
  { intros []; eauto. }
  do 3 (split; [assumption|]).
  exists api_inputs, sm, tot, out, inp. split; [assumption|].
  cbv zeta. repeat split; assumption.
Qed.

Lemma returned_record_is_complete_witness :
  exists m : BenchmarkMetrics,
    (llm_request ticking_clock failing_provider environ_ok request_example).1
    = Ok (m, VStr "Hello", request_example_after)
    /\ m !! ERROR_MSG = Some (VStr "")
    /\ is_Some (m !! TTFT).
Proof.
  destruct (failing_provider_returns ticking_clock) as (m & Hm & _).
  assert (H : (llm_request ticking_clock failing_provider environ_ok request_example).1
              = Ok (m, VStr "Hello", request_example_after)).
  { rewrite Hm. reflexivity. }
  exists m. split; [exact H|].
  destruct (returned_record_is_complete ticking_clock failing_provider environ_ok
              request_example request_example_after m (VStr "Hello") H)
    as (Hall & Hmsg & _).
  split; [exact Hmsg | exact (Hall TTFT)].
Defined.

(** X16: an exception raised by the provider when it is called never reaches
    the caller, and neither does its message: whatever it is, on either path,
    [llm_request] raises [KeyError('totalTokens')], from the report lines. *)
Theorem provider_exception_is_replaced (clock : nat -> float) (bedrock_client : Provider)
    (environ : gmap string string) (rc rc' : RequestConfig)
    (api_inputs : gmap string argval) (stream_model : pyval) (e : exn) :
  credentials_set environ = true ->
  request_builder rc = (Ok (api_inputs, stream_model), rc') ->
  (if truthy stream_model
   then converse_stream bedrock_client (call_arguments rc' api_inputs) = StreamRaise e
   else converse bedrock_client (call_arguments rc' api_inputs) = Raise e) ->
  llm_request clock bedrock_client environ rc
  = (Raise (KeyError (VStr "totalTokens")), rc').
Proof.
  intros Hc Hb He.
  pose proof (failed_call_without_usage clock bedrock_client _ stream_model e He) as Hu.
  rewrite (llm_request_unfold _ _ _ _ _ _ _ Hc Hb). cbv zeta.
  pose proof (report_outcome
                (timing_engine clock bedrock_client (call_arguments rc' api_inputs)
                   stream_model).2) as Ho.
  rewrite Hu in Ho. simpl in Ho.
  destruct (report _) as [[[]|e'] st']; simpl in Ho; [done|]. by injection Ho as ->.
Qed.

Lemma provider_exception_is_replaced_witness :
  llm_request ticking_clock unreachable_provider environ_ok blocking_request
  = (Raise (KeyError (VStr "totalTokens")), blocking_request).
Proof.
  exact (provider_exception_is_replaced ticking_clock unreachable_provider environ_ok
           blocking_request blocking_request blocking_api_inputs (VBool false)
           (ProviderError "unreachable") environ_ok_set eq_refl eq_refl).
Defined.

(** X17: a stream in which no event carries [metadata] never gives a record,
    however it ends and whatever else it delivers: the usage is still the
    empty dictionary at the report lines, and [llm_request] raises
    [KeyError('totalTokens')]. *)
Theorem stream_without_metadata_raises (clock : nat -> float) (bedrock_client : Provider)
    (environ : gmap string string) (rc rc' : RequestConfig)
    (api_inputs : gmap string argval) (stream_model : pyval)
    (events : list dict) (ending : option exn) :
  credentials_set environ = true ->
  request_builder rc = (Ok (api_inputs, stream_model), rc') ->
  truthy stream_model = true ->
  converse_stream bedrock_client (call_arguments rc' api_inputs) = Stream events ending ->
  Forall (fun event : dict => event !! "metadata" = None) events ->
  llm_request clock bedrock_client environ rc
  = (Raise (KeyError (VStr "totalTokens")), rc').
Proof.
  intros Hc Hb Hs Hr Hev.
  pose proof (stream_without_metadata clock bedrock_client _ stream_model events ending
                Hs Hr Hev) as Hu.
  rewrite (llm_request_unfold _ _ _ _ _ _ _ Hc Hb). cbv zeta.
  pose proof (report_outcome
                (timing_engine clock bedrock_client (call_arguments rc' api_inputs)
                   stream_model).2) as Ho.
  rewrite Hu in Ho. simpl in Ho.
  destruct (report _) as [[[]|e'] st']; simpl in Ho; [done|]. by injection Ho as ->.
Qed.

Lemma stream_without_metadata_raises_witness :
  llm_request ticking_clock
    (stream_provider [content_delta_event "Hel"; message_stop_event (VStr "end_turn")] None)
    environ_ok request_example
  = (Raise (KeyError (VStr "totalTokens")), request_example_after).
Proof.
  apply (stream_without_metadata_raises ticking_clock
           (stream_provider
              [content_delta_event "Hel"; message_stop_event (VStr "end_turn")] None)
           environ_ok request_example request_example_after example_api_inputs
           (VBool true) _ None environ_ok_set request_example_built eq_refl eq_refl).
  repeat constructor.
Defined.

(** X18: on the blocking path the text is read before the usage.  When the
    response has its message and role but reading [content[0]["text"]] fails,
    an empty content list say, the failure is swallowed, the usage of the
    response is never assigned, and [llm_request] raises
    [KeyError('totalTokens')] even though the response reported its usage. *)
Theorem blocking_reply_without_text_raises (clock : nat -> float) (bedrock_client : Provider)
    (environ : gmap string string) (rc rc' : RequestConfig)
    (api_inputs : gmap string argval) (stream_model : pyval)
    (response : dict) (output message r content : pyval) (e : exn) :
  credentials_set environ = true ->
  request_builder rc = (Ok (api_inputs, stream_model), rc') ->
  truthy stream_model = false ->
  converse bedrock_client (call_arguments rc' api_inputs) = Ok response ->
  response !! "output" = Some output ->
  getitem output "message" = Ok message ->
  getitem message "role" = Ok r ->
  getitem message "content" = Ok content ->
  match getitem_int content 0 with
  | Ok block => getitem block "text"
  | Raise e' => Raise e'
  end = Raise e ->
  llm_request clock bedrock_client environ rc
  = (Raise (KeyError (VStr "totalTokens")), rc').
Proof.
  intros Hc Hb Hs Hr Ho Hm Hrole Hcontent Htext.
  set (args := call_arguments rc' api_inputs) in *.
  assert (Hu : usage (timing_engine clock bedrock_client args stream_model).2 = VDict ∅).
  { unfold timing_engine, try_body. rewrite Hs. apply try_tail_usage.
    unfold read_response, bind, lift, modify, getitem at 1 4. rewrite Hr, Ho. simpl.
    rewrite Hm. simpl. rewrite Hrole, Hcontent. simpl.
    destruct (getitem_int content 0) as [block|e']; [|done].
    by rewrite Htext. }
  rewrite (llm_request_unfold _ _ _ _ _ _ _ Hc Hb). cbv zeta. fold args.
  pose proof (report_outcome (timing_engine clock bedrock_client args stream_model).2)
    as Hrep.
  rewrite Hu in Hrep. simpl in Hrep.
  destruct (report _) as [[[]|e'] st']; simpl in Hrep; [done|]. by injection Hrep as ->.
Qed.

Lemma blocking_reply_without_text_raises_witness :
  llm_request ticking_clock (reply_provider textless_response) environ_ok blocking_request
  = (Raise (KeyError (VStr "totalTokens")), blocking_request).
Proof.
  apply (blocking_reply_without_text_raises ticking_clock
           (reply_provider textless_response) environ_ok
           blocking_request blocking_request blocking_api_inputs (VBool false)
           textless_response
           (VDict {["message" :=
                      VDict (<["role" := VStr "assistant"]> {["content" := VList []]})]})
           (VDict (<["role" := VStr "assistant"]> {["content" := VList []]}))
           (VStr "assistant") (VList []) IndexError
           environ_ok_set eq_refl eq_refl eq_refl eq_refl eq_refl eq_refl eq_refl eq_refl).
Defined.

(** ** The usage of a stream *)

Lemma transition_usage (clock : nat -> float) (v : StreamEvent) (st : Locals) :
  (transition clock v st).1 = Ok tt ->
  usage (transition clock v st).2 = usage_after (usage st) v.
Proof.
  destruct v as [body|body|body|body]; intros Hok; unfold usage_after.
  - apply (invariant_bind (I := fun st' => usage st' = _)); eauto with inv.
  - unfold transition. unfold bind at 1.
    destruct (record_arrival_shape clock st) as (t & ->).
    apply (invariant_bind (I := fun st' => usage st' = _)); eauto 20 with inv.
  - apply (invariant_bind (I := fun st' => usage st' = _)); eauto with inv.
  - revert Hok. unfold transition, bind, lift, when, ret, modify, contains, getitem, has_key.
    destruct body as [| | | | |l|d]; simpl; try done.
    + destruct (String.index 0 "usage" _); [done|].
      by destruct (String.index 0 "metrics" _).
    + destruct (existsb _ l); [done|]. by destruct (existsb _ l).
    + destruct (d !! "usage"); by destruct (d !! "metrics").
Qed.

Lemma transitions_usage (clock : nat -> float) (vs : list StreamEvent) (st : Locals) :
  (for_each vs (transition clock) st).1 = Ok tt ->
  usage (for_each vs (transition clock) st).2 = fold_left usage_after vs (usage st).
Proof.
  revert st. induction vs as [|v vs IH]; intros st Hok; [done|].
  cbn [for_each fold_left] in *.
  pose proof (transition_usage clock v st) as Hv.
  unfold bind in *. destruct (transition clock v st) as [[[]|e] st1]; [|done].
  rewrite (IH st1 Hok). f_equal. by apply Hv.
Qed.

Lemma variants_usage (events : list dict) (u : pyval) :
  fold_left usage_after (flat_map variants events) u
  = default u (last (omap reported_usage events)).
Proof.
  revert u. induction events as [|event events IH]; intros u; [done|].
  cbn [flat_map]. rewrite fold_left_app, IH.
  assert (H : fold_left usage_after (variants event) u
              = default u (reported_usage event)).
  { unfold variants, variant_of, reported_usage.
    destruct (event !! "messageStart"), (event !! "contentBlockDelta"),
      (event !! "messageStop"), (event !! "metadata") as [[]|]; reflexivity. }
  rewrite H. change (omap reported_usage (event :: events))
    with (match reported_usage event with
          | Some x => x :: omap reported_usage events
          | None => omap reported_usage events
          end).
  destruct (reported_usage event) as [x|]; [|reflexivity].
  rewrite last_cons. by destruct (last (omap reported_usage events)).
Qed.

(** X19: on the streaming path, when every event is handled without failure,
    the usage from which the token counts are read is the one reported by the
    last event whose [metadata] has a [usage] entry: a later report replaces
    an earlier one, a [metadata] without [usage] changes nothing, and with no
    report the usage is still the empty dictionary. *)
Theorem usage_is_the_last_reported (clock : nat -> float) (bedrock_client : Provider)
    (api_inputs : dict) (stream_model : pyval) (events : list dict)
    (ending : option exn) :
  truthy stream_model = true ->
  converse_stream bedrock_client api_inputs = Stream events ending ->
  (for_each events (handle_event clock) (initial_locals clock)).1 = Ok tt ->
  usage (timing_engine clock bedrock_client api_inputs stream_model).2
  = last_usage events.
Proof.
  intros Hs Hr Hok.
  destruct (for_each events (handle_event clock) (initial_locals clock))
    as [o st1] eqn:E.
  destruct (engine_after_stream clock bedrock_client api_inputs stream_model events
              ending o st1 Hs Hr E) as (_ & _ & Hu & _).
  cbv zeta in Hu. rewrite Hu.
  rewrite (for_each_flat_map variants _ (transition clock)) in E
    by apply handle_event_variants.
  pose proof (transitions_usage clock (flat_map variants events) (initial_locals clock))
    as H.
  rewrite E in H. specialize (H Hok). cbn [snd] in H.
  rewrite H, variants_usage. reflexivity.
Qed.

Lemma usage_is_the_last_reported_witness :
  usage (timing_engine ticking_clock
           (stream_provider
              [metadata_event (VDict ∅); content_delta_event "Hi";
               metadata_event usage_example; {["metadata" := VDict ∅]}]
              None) ∅ (VBool true)).2
  = usage_example.
Proof.
  exact (usage_is_the_last_reported ticking_clock
           (stream_provider
              [metadata_event (VDict ∅); content_delta_event "Hi";
               metadata_event usage_example; {["metadata" := VDict ∅]}]
              None) ∅ (VBool true) _ None eq_refl eq_refl eq_refl).
Defined.

(** ** Calls that fail after the usage was assigned *)

Lemma latency_handle_event (clock : nat -> float) (event : dict) (x : pyval * pyval) :
  invariant (fun st => (total_request_time st, output_throughput st) = x)
    (handle_event clock event).
Proof.
  assert (Hr : invariant (fun st => (total_request_time st, output_throughput st) = x)
                 (record_arrival clock)).
  { intros st H. by destruct (record_arrival_shape clock st) as (t & ->). }
  unfold handle_event, on_message_start, on_content_block_delta,
    on_message_stop, on_metadata.
  eauto 30 with inv.
Qed.

Lemma latency_call_path (clock : nat -> float) (bedrock_client : Provider)
    (api_inputs : dict) (stream_model : pyval) (x : pyval * pyval) :
  invariant (fun st => (total_request_time st, output_throughput st) = x)
    (if truthy stream_model
     then consume_stream clock bedrock_client api_inputs
     else read_response bedrock_client api_inputs).
Proof.
  pose proof (latency_handle_event clock).
  apply invariant_if.
  - unfold consume_stream. eauto 10 with inv.
  - unfold read_response. eauto 40 with inv.
Qed.

(** X20: when the selected call path raises, from the provider, from a stream
    that breaks, or from a field that is missing, after the usage was
    assigned in full, the failure is swallowed and a record is returned as
    for a call that succeeded: the text is what was received so far, the
    token counts are those of the usage, the error entries are blank, and the
    end-to-end latency and the throughput are the integer [0] of lines
    125-126, the clock never being read for them. *)
Theorem failed_call_reports_zero_latency (clock : nat -> float) (bedrock_client : Provider)
    (environ : gmap string string) (rc rc' : RequestConfig)
    (api_inputs : gmap string argval) (stream_model : pyval)
    (e : exn) (tot out inp : pyval) :
  credentials_set environ = true ->
  request_builder rc = (Ok (api_inputs, stream_model), rc') ->
  let call_path :=
    (if truthy stream_model
     then consume_stream clock bedrock_client (call_arguments rc' api_inputs)
     else read_response bedrock_client (call_arguments rc' api_inputs))
      (initial_locals clock) in
  call_path.1 = Raise e ->
  getitem (usage call_path.2) "totalTokens" = Ok tot ->
  getitem (usage call_path.2) "outputTokens" = Ok out ->
  getitem (usage call_path.2) "inputTokens" = Ok inp ->
  exists m : BenchmarkMetrics,
    llm_request clock bedrock_client environ rc
      = (Ok (m, generated_text call_path.2, rc'), rc')
    /\ m !! E2E_LAT = Some (VInt 0)
    /\ m !! REQ_OUTPUT_THROUGHPUT = Some (VInt 0)
    /\ m !! NUM_TOTAL_TOKENS = Some tot
    /\ m !! NUM_OUTPUT_TOKENS = Some out
    /\ m !! NUM_INPUT_TOKENS = Some inp
    /\ m !! ERROR_MSG = Some (VStr "")
    /\ m !! ERROR_CODE = Some VNone.
Proof.
  intros Hc Hb call_path He Htot Hout Hinp.
  set (args := call_arguments rc' api_inputs) in *.
  pose proof (latency_call_path clock bedrock_client args stream_model
                (VInt 0, VInt 0) (initial_locals clock) eq_refl) as Hlat.
  fold call_path in Hlat.
  assert (Hst : (timing_engine clock bedrock_client args stream_model).2
                = (on_exception e call_path.2).2).
  { unfold timing_engine, try_except, try_body, bind at 1. fold call_path.
    destruct call_path as [o st1]. simpl in He. by subst o. }
  destruct (llm_request_returns clock bedrock_client environ rc rc' api_inputs
              stream_model _ tot out inp Hc Hb Hst)
    as (m & Hm & _ & _ & Hm1 & Hm2 & Hm3 & Hm4 & Hm5 & _).
  1-3: by destruct call_path.2.
  destruct (error_fields_never_populated clock bedrock_client environ rc rc' m
              (generated_text (on_exception e call_path.2).2))
    as [Hemsg Hecode]; [by rewrite Hm|].
  injection Hlat as Hl1 Hl2.
  exists m. split; [rewrite Hm; by destruct call_path.2|].
  split; [rewrite Hm1, <- Hl1; by destruct call_path.2|].
  split; [rewrite Hm2, <- Hl2; by destruct call_path.2|].
  repeat split; assumption.
Qed.

Lemma failed_call_reports_zero_latency_witness :
  exists m : BenchmarkMetrics,
    llm_request ticking_clock failing_provider environ_ok request_example
      = (Ok (m, VStr "Hello", request_example_after), request_example_after)
    /\ m !! E2E_LAT = Some (VInt 0).
Proof.
  destruct (failed_call_reports_zero_latency ticking_clock failing_provider environ_ok
              request_example request_example_after example_api_inputs (VBool true)
              (ProviderError "connection reset") (VInt 5) (VInt 2) (VInt 3)
              environ_ok_set request_example_built eq_refl eq_refl eq_refl eq_refl)
    as (m & Hm & He & _).
  exists m. split; [exact Hm | exact He].
Defined.
